(** * ztracereceiver: the trace engine, the telemetry projections and the
    receiver's stop operation

    A shallow embedding of [receiver/ztracereceiver] (tracer.go, receiver.go,
    config.go).  Go's [int] is a [Z], [float64] is the kernel's binary64
    [float], strings are [string]; the pseudo-random source, the resolver, the
    context and the wall clock are explicit inputs. *)

From Stdlib Require Import ZArith List String Ascii Bool Lia Floats DecimalString.
Import ListNotations.

Local Open Scope string_scope.
Local Open Scope Z_scope.

(** ** Go primitives *)

Module Go.

(** [int64(x)] and [uint64(x)] on an integer: two's complement wrap-around. *)
Definition to_int64 (z : Z) : Z := (z + 2 ^ 63) mod 2 ^ 64 - 2 ^ 63.
Definition to_uint64 (z : Z) : Z := z mod 2 ^ 64.

(** [byte(x)] on an [int]: the low eight bits. *)
Definition to_byte (z : Z) : Z := z mod 256.

(** [float64(x)] on an integer: the nearest binary64, ties to even. *)
Definition float64_of_int (z : Z) : float :=
  SF2Prim (binary_normalize prec emax z 0 false).

(** [int64(f)] on a [float64]: the fraction is discarded (truncation towards
    zero).  For a NaN, an infinity or a value outside int64 the result is
    implementation-dependent; amd64 gives the "integer indefinite" value
    [-2^63], which is what this definition returns there. *)
Definition int64_indefinite : Z := - 2 ^ 63.

Definition int64_of_float64 (f : float) : Z :=
  match Prim2SF f with
  | S754_zero _ => 0
  | S754_finite s m e =>
      let mag := match e with
                 | Z0 => Z.pos m
                 | Zpos p => Z.pos m * 2 ^ Z.pos p
                 | Zneg p => Z.pos m / 2 ^ Z.pos p
                 end in
      let v := if s then - mag else mag in
      if (- 2 ^ 63 <=? v) && (v <? 2 ^ 63) then v else int64_indefinite
  | S754_infinity _ | S754_nan => int64_indefinite
  end.

(** [fmt.Sprintf("%d", x)]. *)
Definition itoa (z : Z) : string := NilZero.string_of_int (Z.to_int z).

(** [fmt.Sprintf("%q", s)] for a string that needs no escape. *)
Definition quoted (s : string) : string :=
  String (ascii_of_nat 34) (s ++ String (ascii_of_nat 34) EmptyString).

(** [error] values the engine can return. *)
Inductive error : Type :=
| Canceled                                   (* context.Canceled *)
| DeadlineExceeded                           (* context.DeadlineExceeded *)
| ErrorNew (msg : string)                    (* errors.New, fmt.Errorf *)
| Wrapped (msg : string) (cause : error).    (* fmt.Errorf with %w *)

End Go.

(** ** math/rand

    The global source is an unknown sequence of draws; [Intn n] and [Float64]
    consume one draw each.  Every value of [0, n) (resp. every multiple of
    [2^-53] in [0, 1)) is obtained from a suitable draw. *)

Module Rand.

Record Source : Type := { draws : nat -> Z; cursor : nat }.

Definition M (A : Type) : Type := Source -> A * Source.

Definition ret {A} (a : A) : M A := fun s => (a, s).
Definition bind {A B} (m : M A) (k : A -> M B) : M B :=
  fun s => let (a, s') := m s in k a s'.

Definition next : M Z :=
  fun s => (draws s (cursor s), {| draws := draws s; cursor := S (cursor s) |}).

Definition Intn (n : Z) : M Z := bind next (fun d => ret (d mod n)).

Definition Float64 : M float :=
  bind next (fun d =>
    ret (PrimFloat.div (Go.float64_of_int (d mod 2 ^ 53))
                       (Go.float64_of_int (2 ^ 53)))).

End Rand.

Notation "x <- m ;; k" := (Rand.bind m (fun x => k))
  (at level 61, m at next level, right associativity).

(** ** config.go *)

Record TargetConfig : Type := {
  Endpoint : string;
  Port : Z;
  (* a Go map; the list is the order in which [range] yields its entries *)
  Tags : list (string * string)
}.

Record Config : Type := {
  Targets : list TargetConfig;
  CollectionInterval : Z;
  Timeout : Z;
  Protocol : string;
  MaxHops : Z;
  PacketSize : Z;
  Retries : Z;
  EnableGeolocation : bool;
  EnableASNLookup : bool
}.

(** [Validate]'s loop over the targets, [i] the index of the head. *)
Fixpoint validateTargets (protocol : string) (i : Z) (ts : list TargetConfig)
  : option Go.error :=
  match ts with
  | [] => None
  | target :: rest =>
      if String.eqb (Endpoint target) EmptyString then
        Some (Go.ErrorNew ("target[" ++ Go.itoa i ++ "]: endpoint cannot be empty"))
      else if negb (String.eqb protocol "icmp") && (Port target <=? 0) then
        Some (Go.ErrorNew ("target[" ++ Go.itoa i ++ "]: port must be specified for "
                           ++ protocol ++ " protocol"))
      else validateTargets protocol (i + 1) rest
  end.

(** [Config.Validate]; [None] is Go's [nil] error. *)
Definition Validate (cfg : Config) : option Go.error :=
  if (Z.of_nat (List.length (Targets cfg)) =? 0) then
    Some (Go.ErrorNew "at least one target must be specified")
  else match validateTargets (Protocol cfg) 0 (Targets cfg) with
  | Some e => Some e
  | None =>
  if CollectionInterval cfg <=? 0 then
    Some (Go.ErrorNew "collection_interval must be positive")
  else if Timeout cfg <=? 0 then
    Some (Go.ErrorNew "timeout must be positive")
  else if negb (String.eqb (Protocol cfg) "udp")
          && negb (String.eqb (Protocol cfg) "icmp")
          && negb (String.eqb (Protocol cfg) "tcp") then
    Some (Go.ErrorNew ("invalid protocol " ++ Go.quoted (Protocol cfg)
                       ++ ", must be one of: udp, icmp, tcp"))
  else if (MaxHops cfg <=? 0) || (64 <? MaxHops cfg) then
    Some (Go.ErrorNew "max_hops must be between 1 and 64")
  else if (PacketSize cfg <=? 0) || (65535 <? PacketSize cfg) then
    Some (Go.ErrorNew "packet_size must be between 1 and 65535")
  else if Retries cfg <? 0 then
    Some (Go.ErrorNew "retries must be non-negative")
  else None
  end.

(** ** tracer.go *)

Record hopInfo : Type := {
  ttl : Z;
  ip : string;
  hostname : string;
  latency : float;      (* in milliseconds *)
  packetLoss : float;   (* percentage *)
  jitter : float;       (* in milliseconds *)
  city : string;
  country : string;
  asn : string;
  provider : string
}.

Record traceResult : Type := {
  hops : list hopInfo;
  totalLatency : float;
  targetReached : bool
}.

(** Field assignments [hop.f = v]. *)
Definition set_ip (v : string) (h : hopInfo) : hopInfo :=
  {| ttl := ttl h; ip := v; hostname := hostname h; latency := latency h;
     packetLoss := packetLoss h; jitter := jitter h; city := city h;
     country := country h; asn := asn h; provider := provider h |}.
Definition set_hostname (v : string) (h : hopInfo) : hopInfo :=
  {| ttl := ttl h; ip := ip h; hostname := v; latency := latency h;
     packetLoss := packetLoss h; jitter := jitter h; city := city h;
     country := country h; asn := asn h; provider := provider h |}.
Definition set_latency (v : float) (h : hopInfo) : hopInfo :=
  {| ttl := ttl h; ip := ip h; hostname := hostname h; latency := v;
     packetLoss := packetLoss h; jitter := jitter h; city := city h;
     country := country h; asn := asn h; provider := provider h |}.
Definition set_packetLoss (v : float) (h : hopInfo) : hopInfo :=
  {| ttl := ttl h; ip := ip h; hostname := hostname h; latency := latency h;
     packetLoss := v; jitter := jitter h; city := city h;
     country := country h; asn := asn h; provider := provider h |}.
Definition set_jitter (v : float) (h : hopInfo) : hopInfo :=
  {| ttl := ttl h; ip := ip h; hostname := hostname h; latency := latency h;
     packetLoss := packetLoss h; jitter := v; city := city h;
     country := country h; asn := asn h; provider := provider h |}.
Definition set_geo (c k : string) (h : hopInfo) : hopInfo :=
  {| ttl := ttl h; ip := ip h; hostname := hostname h; latency := latency h;
     packetLoss := packetLoss h; jitter := jitter h; city := c;
     country := k; asn := asn h; provider := provider h |}.
Definition set_asn (a p : string) (h : hopInfo) : hopInfo :=
  {| ttl := ttl h; ip := ip h; hostname := hostname h; latency := latency h;
     packetLoss := packetLoss h; jitter := jitter h; city := city h;
     country := country h; asn := a; provider := p |}.

(** [hopInfo{ttl: ttl}]: every other field has its zero value. *)
Definition newHop (t : Z) : hopInfo :=
  {| ttl := t; ip := EmptyString; hostname := EmptyString; latency := 0%float;
     packetLoss := 0%float; jitter := 0%float; city := EmptyString;
     country := EmptyString; asn := EmptyString; provider := EmptyString |}.

Definition when (b : bool) (f : hopInfo -> hopInfo) (h : hopInfo) : hopInfo :=
  if b then f h else h.

(** The [switch] of [traceHop]: the simulated scenario for this ttl. *)
Definition hopScenario (t : Z) (target : string) (config : Config)
  (hop : hopInfo) : Rand.M hopInfo :=
  if t <=? 3 then
    r <- Rand.Intn 5 ;;
    Rand.ret (set_hostname ("router-" ++ Go.itoa t ++ ".local")
             (set_latency (Go.float64_of_int (r + 1))
             (set_ip ("192.168.1." ++ Go.itoa t) hop)))
  else if t <=? 8 then
    r <- Rand.Intn 20 ;;
    Rand.ret (when (EnableASNLookup config)
                (set_asn ("AS" ++ Go.itoa (64500 + t)) "Example ISP")
             (set_hostname ("isp-router-" ++ Go.itoa t ++ ".example.net")
             (set_latency (Go.float64_of_int (r + 5))
             (set_ip ("10." ++ Go.itoa t ++ "." ++ Go.itoa (t * 10) ++ ".1") hop))))
  else if t <=? 12 then
    r <- Rand.Intn 50 ;;
    Rand.ret (when (EnableASNLookup config)
                (set_asn ("AS" ++ Go.itoa 15169) "Google LLC")
             (when (EnableGeolocation config)
                (set_geo "San Francisco" "United States")
             (set_latency (Go.float64_of_int (r + 20))
             (set_ip ("203.0." ++ Go.itoa t ++ ".1") hop))))
  else if 15 <=? t then
    r <- Rand.Intn 100 ;;
    Rand.ret (when (EnableGeolocation config)
                (set_geo "Mountain View" "United States")
             (set_hostname "target.example.com"
             (set_latency (Go.float64_of_int (r + 50))
             (set_ip target hop))))
  else
    Rand.ret (set_latency 0%float (set_ip EmptyString hop)).

(** [tracer.traceHop]; [target] is [target.String()]. *)
Definition traceHop (t : Z) (target : string) (config : Config)
  : Rand.M hopInfo :=
  hop <- hopScenario t target config (newHop t) ;;
  f <- Rand.Float64 ;;
  hop <- (if PrimFloat.ltb f 0x1.999999999999ap-4%float
          then r <- Rand.Intn 20 ;;
               Rand.ret (set_packetLoss (Go.float64_of_int r) hop)
          else Rand.ret hop) ;;
  hop <- (if PrimFloat.ltb 0%float (latency hop)
          then r <- Rand.Intn 5 ;;
               Rand.ret (set_jitter (Go.float64_of_int r) hop)
          else Rand.ret hop) ;;
  Rand.ret hop.

(** What the engine sees of its [context.Context]: at the check that starts
    the iteration for a ttl, [ctxErr] is [ctx.Err()] when [ctx.Done()] is
    closed and [None] otherwise. *)
Record Context : Type := { ctxErr : Z -> option Go.error }.

(** [net.ResolveIPAddr("ip4", endpoint)]: the address as [addr.String()]
    prints it, or the resolver's error. *)
Definition Resolver : Type := string -> string + Go.error.

(** How the probing loop ends: it runs to its end or [break]s with the
    result so far, or the function returns from inside it. *)
Inductive loopExit : Type :=
| LoopDone (result : traceResult)
| LoopReturn (err : Go.error).

Definition appendHop (hop : hopInfo) (r : traceResult) : traceResult :=
  {| hops := (hops r ++ [hop])%list; totalLatency := totalLatency r;
     targetReached := targetReached r |}.
Definition set_targetReached (b : bool) (r : traceResult) : traceResult :=
  {| hops := hops r; totalLatency := totalLatency r; targetReached := b |}.
Definition set_totalLatency (v : float) (r : traceResult) : traceResult :=
  {| hops := hops r; totalLatency := v; targetReached := targetReached r |}.

(** [for ttl := t; ttl <= config.MaxHops; ttl++ { ... }] with [n] iterations
    left, that is [n = MaxHops - t + 1]. *)
Fixpoint probeLoop (n : nat) (t : Z) (ctx : Context) (addr : string)
  (config : Config) (result : traceResult) : Rand.M loopExit :=
  match n with
  | O => Rand.ret (LoopDone result)
  | S n' =>
      match ctxErr ctx t with
      | Some e => Rand.ret (LoopReturn e)
      | None =>
          hop <- traceHop t addr config ;;
          let result := appendHop hop result in
          if String.eqb (ip hop) addr
          then Rand.ret (LoopDone (set_targetReached true result))
          else probeLoop n' (t + 1) ctx addr config result
      end
  end.

(** The loop that computes the total latency. *)
Definition sumUp (result : traceResult) : traceResult :=
  fold_left (fun r hop =>
               if PrimFloat.ltb (totalLatency r) (latency hop)
               then set_totalLatency (latency hop) r else r)
            (hops result) result.

(** The result a run starts from: [&traceResult{hops: make(...)}]. *)
Definition freshResult : traceResult :=
  {| hops := []; totalLatency := 0%float; targetReached := false |}.

(** [tracer.trace]: Go's pair of a result pointer and an error, [None] for
    [nil]. *)
Definition trace (resolve : Resolver) (ctx : Context) (target : TargetConfig)
  (config : Config) : Rand.M (option traceResult * option Go.error) :=
  match resolve (Endpoint target) with
  | inr err =>
      Rand.ret (None, Some (Go.Wrapped ("failed to resolve target "
                                        ++ Endpoint target ++ ": ") err))
  | inl addr =>
      x <- probeLoop (Z.to_nat (MaxHops config)) 1 ctx addr config
                     freshResult ;;
      match x with
      | LoopReturn e => Rand.ret (None, Some e)
      | LoopDone result => Rand.ret (Some (sumUp result), None)
      end
  end.

(** ** The time package and pdata, as far as the projections use them *)

Module Time.

(** A [time.Time] is its count of nanoseconds since the Unix epoch; a
    [time.Duration] is an int64 count of nanoseconds. *)
Definition Time : Type := Z.
Definition Millisecond : Z := 1000000.

Definition Add (t : Time) (d : Z) : Time := t + d.
Definition UnixNano (t : Time) : Z := Go.to_int64 t.
(** [time.Unix(0, nsec)]. *)
Definition Unix0 (nsec : Z) : Time := nsec.

(** [time.Duration(f) * time.Millisecond] for a [float64] [f], and its
    variant with the unary minus of [convertToTraces]. *)
Definition millis (f : float) : Z :=
  Go.to_int64 (Go.int64_of_float64 f * Millisecond).
Definition negMillis (f : float) : Z :=
  Go.to_int64 (Go.to_int64 (- Go.int64_of_float64 f) * Millisecond).

End Time.

Module pcommon.

Inductive Value : Type :=
| ValueStr (s : string)
| ValueInt (z : Z)
| ValueDouble (f : float).

(** [pcommon.Map]: the entries in insertion order; [Put*] overwrites the
    value of a key that is present and appends otherwise. *)
Definition Map : Type := list (string * Value).

Fixpoint Put (k : string) (v : Value) (m : Map) : Map :=
  match m with
  | [] => [(k, v)]
  | (k', v') :: rest =>
      if String.eqb k' k then (k, v) :: rest else (k', v') :: Put k v rest
  end.

Definition PutStr (k v : string) : Map -> Map := Put k (ValueStr v).
Definition PutInt (k : string) (v : Z) : Map -> Map := Put k (ValueInt v).
Definition PutDouble (k : string) (v : float) : Map -> Map := Put k (ValueDouble v).

(** A block of statements on one map: the calls in program order. *)
Definition run (calls : list (Map -> Map)) (m : Map) : Map :=
  fold_left (fun acc call => call acc) calls m.

(** [if cond { calls }]. *)
Definition guarded (cond : bool) (calls : list (Map -> Map)) : Map -> Map :=
  if cond then run calls else fun m => m.

Definition keys (m : Map) : list string := map fst m.

(** [NewTimestampFromTime]: [Timestamp(uint64(t.UnixNano()))]. *)
Definition NewTimestampFromTime (t : Time.Time) : Z :=
  Go.to_uint64 (Time.UnixNano t).
(** [Timestamp.AsTime]: [time.Unix(0, int64(ts))]. *)
Definition AsTime (ts : Z) : Time.Time := Time.Unix0 (Go.to_int64 ts).

Definition TraceID : Type := list Z.   (* [16]byte *)
Definition SpanID : Type := list Z.    (* [8]byte *)

(** The composite literals [[16]byte{}] and [[8]byte{b}]. *)
Definition bytes16 : TraceID := repeat 0 16.
Definition bytes8 (first : Z) : SpanID := first :: repeat 0 7.

End pcommon.

Module pmetric.

Inductive NumberValue : Type :=
| Empty
| DoubleValue (f : float)
| IntValue (z : Z).

Record NumberDataPoint : Type := {
  dpTimestamp : Z;
  dpValue : NumberValue;
  dpAttributes : pcommon.Map
}.

Record Metric : Type := {
  Name : string;
  Description : string;
  Unit : string;
  Gauge : list NumberDataPoint
}.

Record ScopeMetrics : Type := {
  scopeName : string;
  scopeVersion : string;
  metrics : list Metric
}.

Record ResourceMetrics : Type := {
  resource : pcommon.Map;
  scopeMetrics : list ScopeMetrics
}.

Definition Metrics : Type := list ResourceMetrics.

End pmetric.

Module ptrace.

Inductive SpanKind : Type :=
| SpanKindUnspecified | SpanKindInternal | SpanKindServer
| SpanKindClient | SpanKindProducer | SpanKindConsumer.

Record SpanEvent : Type := {
  evName : string;
  evTimestamp : Z;
  evAttributes : pcommon.Map
}.

Record Span : Type := {
  spName : string;
  spKind : SpanKind;
  spTraceID : pcommon.TraceID;
  spSpanID : pcommon.SpanID;
  spParentSpanID : pcommon.SpanID;
  spStart : Z;
  spEnd : Z;
  spAttributes : pcommon.Map;
  spEvents : list SpanEvent
}.

Record ScopeSpans : Type := {
  scopeName : string;
  scopeVersion : string;
  spans : list Span
}.

Record ResourceSpans : Type := {
  resource : pcommon.Map;
  scopeSpans : list ScopeSpans
}.

Definition Traces : Type := list ResourceSpans.

End ptrace.

(** ** receiver.go: the two projections *)

Import pcommon.

Definition nonEmpty (s : string) : bool := negb (String.eqb s EmptyString).

(** The tags loop: [for k, v := range target.Tags { PutStr(k, v) }]. *)
Definition putTags (tags : list (string * string)) : list (Map -> Map) :=
  map (fun kv => PutStr (fst kv) (snd kv)) tags.

Definition metricsResource (config : Config) (target : TargetConfig) : Map :=
  run ([ PutStr "ztrace.target" (Endpoint target);
         PutStr "ztrace.protocol" (Protocol config);
         guarded (0 <? Port target) [PutInt "ztrace.port" (Port target)] ]
       ++ putTags (Tags target)) [].

Definition latencyMetric (config : Config) (timestamp : Z) (hop : hopInfo)
  : pmetric.Metric :=
  {| pmetric.Name := "ztrace.hop.latency";
     pmetric.Description := "Latency for each hop in the trace";
     pmetric.Unit := "ms";
     pmetric.Gauge :=
       [ {| pmetric.dpTimestamp := timestamp;
            pmetric.dpValue := pmetric.DoubleValue (latency hop);
            pmetric.dpAttributes :=
              run [ PutInt "ttl" (ttl hop);
                    PutStr "ip" (ip hop);
                    guarded (nonEmpty (hostname hop))
                      [PutStr "hostname" (hostname hop)];
                    guarded (EnableGeolocation config && nonEmpty (city hop))
                      [PutStr "city" (city hop);
                       PutStr "country" (country hop)];
                    guarded (EnableASNLookup config && nonEmpty (asn hop))
                      [PutStr "asn" (asn hop);
                       PutStr "provider" (provider hop)] ] [] |} ] |}.

Definition lossMetric (timestamp : Z) (hop : hopInfo) : pmetric.Metric :=
  {| pmetric.Name := "ztrace.hop.packet_loss";
     pmetric.Description := "Packet loss percentage for each hop";
     pmetric.Unit := "%";
     pmetric.Gauge :=
       [ {| pmetric.dpTimestamp := timestamp;
            pmetric.dpValue := pmetric.DoubleValue (packetLoss hop);
            pmetric.dpAttributes :=
              run [PutInt "ttl" (ttl hop); PutStr "ip" (ip hop)] [] |} ] |}.

Definition jitterMetric (timestamp : Z) (hop : hopInfo) : pmetric.Metric :=
  {| pmetric.Name := "ztrace.hop.jitter";
     pmetric.Description := "Jitter for each hop in the trace";
     pmetric.Unit := "ms";
     pmetric.Gauge :=
       [ {| pmetric.dpTimestamp := timestamp;
            pmetric.dpValue := pmetric.DoubleValue (jitter hop);
            pmetric.dpAttributes :=
              run [PutInt "ttl" (ttl hop); PutStr "ip" (ip hop)] [] |} ] |}.

(** The body of [for _, hop := range result.hops]: the metrics one hop
    appends, in order. *)
Definition hopMetrics (config : Config) (timestamp : Z) (hop : hopInfo)
  : list pmetric.Metric :=
  ([latencyMetric config timestamp hop]
   ++ (if PrimFloat.ltb 0%float (packetLoss hop)
       then [lossMetric timestamp hop] else [])
   ++ (if PrimFloat.ltb 0%float (jitter hop)
       then [jitterMetric timestamp hop] else []))%list.

Definition totalLatencyMetric (timestamp : Z) (result : traceResult)
  : pmetric.Metric :=
  {| pmetric.Name := "ztrace.total_latency";
     pmetric.Description := "Total latency to reach the target";
     pmetric.Unit := "ms";
     pmetric.Gauge :=
       [ {| pmetric.dpTimestamp := timestamp;
            pmetric.dpValue := pmetric.DoubleValue (totalLatency result);
            pmetric.dpAttributes := [] |} ] |}.

Definition hopCountMetric (timestamp : Z) (result : traceResult)
  : pmetric.Metric :=
  {| pmetric.Name := "ztrace.hop_count";
     pmetric.Description := "Number of hops to reach the target";
     pmetric.Unit := "1";
     pmetric.Gauge :=
       [ {| pmetric.dpTimestamp := timestamp;
            pmetric.dpValue :=
              pmetric.IntValue (Z.of_nat (List.length (hops result)));
            pmetric.dpAttributes := [] |} ] |}.

(** [convertToMetrics]; [now] is the one reading of [time.Now()]. *)
Definition convertToMetrics (config : Config) (now : Time.Time)
  (result : traceResult) (target : TargetConfig) : pmetric.Metrics :=
  let timestamp := NewTimestampFromTime now in
  [ {| pmetric.resource := metricsResource config target;
       pmetric.scopeMetrics :=
         [ {| pmetric.scopeName := "ztrace";
              pmetric.scopeVersion := "1.0.0";
              pmetric.metrics :=
                (flat_map (hopMetrics config timestamp) (hops result)
                 ++ (if PrimFloat.ltb 0%float (totalLatency result)
                     then [totalLatencyMetric timestamp result] else [])
                 ++ [hopCountMetric timestamp result])%list |} ] |} ].

Definition tracesResource (config : Config) (target : TargetConfig) : Map :=
  run ([ PutStr "ztrace.target" (Endpoint target);
         PutStr "ztrace.protocol" (Protocol config);
         PutStr "service.name" "ztrace";
         guarded (0 <? Port target) [PutInt "ztrace.port" (Port target)] ]
       ++ putTags (Tags target)) [].

(** The identifiers of [convertToTraces]. *)
Definition traceID : TraceID := bytes16.
Definition rootSpanID : SpanID := bytes8 0.
Definition hopSpanID (hop : hopInfo) : SpanID := bytes8 (Go.to_byte (ttl hop)).

Definition rootSpan (startTime endTime : Z) (result : traceResult)
  (target : TargetConfig) : ptrace.Span :=
  {| ptrace.spName := "traceroute to " ++ Endpoint target;
     ptrace.spKind := ptrace.SpanKindClient;
     ptrace.spTraceID := traceID;
     ptrace.spSpanID := rootSpanID;
     ptrace.spParentSpanID := bytes8 0;   (* never set: the zero value *)
     ptrace.spStart := startTime;
     ptrace.spEnd := endTime;
     ptrace.spAttributes :=
       run [ PutInt "hop.count" (Z.of_nat (List.length (hops result)));
             PutDouble "total.latency.ms" (totalLatency result) ] [];
     ptrace.spEvents := [] |}.

Definition hopEndTime (startTime : Z) (hop : hopInfo) : Z :=
  NewTimestampFromTime (Time.Add (AsTime startTime) (Time.millis (latency hop))).

(** The body of the loop over the hops: the child span of one hop. *)
Definition hopSpan (config : Config) (startTime : Z) (hop : hopInfo)
  : ptrace.Span :=
  {| ptrace.spName := "hop " ++ Go.itoa (ttl hop) ++ ": " ++ ip hop;
     ptrace.spKind := ptrace.SpanKindClient;
     ptrace.spTraceID := traceID;
     ptrace.spSpanID := hopSpanID hop;
     ptrace.spParentSpanID := rootSpanID;
     ptrace.spStart := startTime;
     ptrace.spEnd := hopEndTime startTime hop;
     ptrace.spAttributes :=
       run [ PutInt "ttl" (ttl hop);
             PutStr "ip" (ip hop);
             PutDouble "latency.ms" (latency hop);
             guarded (nonEmpty (hostname hop))
               [PutStr "hostname" (hostname hop)];
             guarded (PrimFloat.ltb 0%float (packetLoss hop))
               [PutDouble "packet_loss.percent" (packetLoss hop)];
             guarded (PrimFloat.ltb 0%float (jitter hop))
               [PutDouble "jitter.ms" (jitter hop)];
             guarded (EnableGeolocation config && nonEmpty (city hop))
               [PutStr "geo.city" (city hop);
                PutStr "geo.country" (country hop)];
             guarded (EnableASNLookup config && nonEmpty (asn hop))
               [PutStr "network.asn" (asn hop);
                PutStr "network.provider" (provider hop)] ] [];
     ptrace.spEvents :=
       if PrimFloat.ltb 50%float (packetLoss hop)
       then [ {| ptrace.evName := "high_packet_loss";
                 ptrace.evTimestamp := hopEndTime startTime hop;
                 ptrace.evAttributes :=
                   run [PutDouble "packet_loss.percent" (packetLoss hop)] [] |} ]
       else [] |}.

(** [convertToTraces]; [now1] and [now2] are its two readings of
    [time.Now()], in program order. *)
Definition convertToTraces (config : Config) (now1 now2 : Time.Time)
  (result : traceResult) (target : TargetConfig) : ptrace.Traces :=
  let startTime :=
    NewTimestampFromTime
      (Time.Add now1 (Time.negMillis (totalLatency result))) in
  let endTime := NewTimestampFromTime now2 in
  [ {| ptrace.resource := tracesResource config target;
       ptrace.scopeSpans :=
         [ {| ptrace.scopeName := "ztrace";
              ptrace.scopeVersion := "1.0.0";
              ptrace.spans :=
                rootSpan startTime endTime result target
                :: map (hopSpan config startTime) (hops result) |} ] |} ].

(** Every metric and every span of a batch, whatever its resource and scope. *)
Definition allMetrics (md : pmetric.Metrics) : list pmetric.Metric :=
  flat_map (fun rm => flat_map pmetric.metrics (pmetric.scopeMetrics rm)) md.
Definition allSpans (td : ptrace.Traces) : list ptrace.Span :=
  flat_map (fun rs => flat_map ptrace.spans (ptrace.scopeSpans rs)) td.

(** ** receiver.go: Start and Shutdown

    The receiver's scheduling state, and what one sequential caller observes
    of a call: it returns, panics, or blocks for ever.  [wg] is the
    WaitGroup's counter, that is the number of [collect] goroutines that have
    not returned; such a goroutine returns once it finds [stopCh] closed
    (after its current [runTrace]), and never otherwise. *)

Module Receiver.

Inductive chan : Type :=
| ChanNil       (* the zero value: no [make] yet *)
| ChanOpen
| ChanClosed.

Record state : Type := {
  stopCh : chan;
  stopOnce : bool;      (* sync.Once: [true] once [Do] has run its function *)
  wg : nat;
  tracer : option string  (* the tracer's protocol; [None] for a nil pointer *)
}.

Inductive event : Type :=
| CloseStopCh
| WaitReturned
| TracerClosed
| Logged (msg : string).

Inductive outcome : Type :=
| Returns (err : option Go.error) (s : state) (trail : list event)
| Panics (msg : string)
| Blocks.

(** The receiver the factory builds: every scheduling field has its zero
    value. *)
Definition created : state :=
  {| stopCh := ChanNil; stopOnce := false; wg := 0%nat; tracer := None |}.

(** [Start]: [newTracer] never fails, so neither does [Start]. *)
Definition Start (config : Config) (s : state) : outcome :=
  Returns None
    {| stopCh := ChanOpen;                      (* make(chan struct{}) *)
       stopOnce := stopOnce s;
       wg := (wg s + List.length (Targets config))%nat;   (* wg.Add(1) per target *)
       tracer := Some (Protocol config) |}
    [Logged "ztrace receiver started"].

(** [close(ch)]. *)
Definition close (c : chan) : chan + string :=
  match c with
  | ChanNil => inr "close of nil channel"
  | ChanClosed => inr "close of closed channel"
  | ChanOpen => inl ChanClosed
  end.

(** [r.wg.Wait()]: [None] when it never returns. *)
Definition Wait (s : state) : option state :=
  match wg s, stopCh s with
  | O, _ => Some s
  | S _, ChanClosed =>
      Some {| stopCh := stopCh s; stopOnce := stopOnce s; wg := 0%nat;
              tracer := tracer s |}
  | S _, _ => None
  end.

(** The rest of [Shutdown] after [stopOnce.Do]. *)
Definition afterOnce (s : state) (trail : list event) : outcome :=
  match Wait s with
  | None => Blocks
  | Some s' =>
      Returns None s'
        (trail ++ [WaitReturned]
         ++ (match tracer s' with Some _ => [TracerClosed] | None => [] end)
         ++ [Logged "ztrace receiver stopped"])%list
  end.

Definition Shutdown (s : state) : outcome :=
  if stopOnce s then afterOnce s []
  else
    (* sync.Once marks itself done even when the function panics *)
    match close (stopCh s) with
    | inr msg => Panics msg
    | inl c =>
        afterOnce {| stopCh := c; stopOnce := true; wg := wg s;
                     tracer := tracer s |} [CloseStopCh]
    end.

End Receiver.

(** * Vocabulary of the properties and concrete inputs *)

(** The jitter gauges of a batch go by their name. *)
Definition isJitterMetric (m : pmetric.Metric) : bool :=
  String.eqb (pmetric.Name m) "ztrace.hop.jitter".

(** The hop of the counterexample: no latency measured, jitter 3 ms. *)
Definition unmeasuredHop : hopInfo :=
  set_jitter 3%float (set_ip "10.0.0.1" (newHop 1)).

(** A configuration with both enrichment flags off. *)
Definition bareConfig : Config :=
  {| Targets := []; CollectionInterval := 0; Timeout := 0; Protocol := "udp";
     MaxHops := 30; PacketSize := 56; Retries := 3;
     EnableGeolocation := false; EnableASNLookup := false |}.

(** The target of the repository's metrics test. *)
Definition exampleTarget : TargetConfig :=
  {| Endpoint := "example.com"; Port := 80; Tags := [("env", "test")] |}.

Ltac hop_simpl :=
  cbn [fst snd ttl ip hostname latency packetLoss jitter city country asn
       provider set_ip set_hostname set_latency set_packetLoss set_jitter
       set_geo set_asn newHop when] in *.

Ltac rand_unfold :=
  cbv beta iota zeta
      delta [Rand.bind Rand.Intn Rand.Float64 Rand.next Rand.ret] in *.

(** The result of the repository's own projection test: two hops with
    fractional latencies. *)
Definition testedResult : traceResult :=
  {| hops :=
       [ set_hostname "router.local"
           (set_latency 2.5%float (set_ip "192.168.1.1" (newHop 1)));
         set_packetLoss 60%float
           (set_hostname "gateway.isp.net"
              (set_latency 0x1.4666666666666p+3%float   (* 10.2 *)
                 (set_ip "10.0.0.1" (newHop 2)))) ];
     totalLatency := 0x1.9666666666666p+3%float;         (* 12.7 *)
     targetReached := true |}.

Definition otherTarget : TargetConfig :=
  {| Endpoint := "example.org"; Port := 0; Tags := [] |}.

(** How often a call closed the stop channel. *)
Definition closes (trail : list Receiver.event) : nat :=
  List.length (filter (fun e => match e with
                                | Receiver.CloseStopCh => true
                                | _ => false
                                end) trail).

(** A receiver started on one target, as in the lifecycle test. *)
Definition lifecycleConfig : Config :=
  {| Targets := [{| Endpoint := "example.com"; Port := 80; Tags := [] |}];
     CollectionInterval := 30000000000; Timeout := 10000000000;
     Protocol := "udp"; MaxHops := 30; PacketSize := 56; Retries := 3;
     EnableGeolocation := false; EnableASNLookup := false |}.

Definition startedState : Receiver.state :=
  {| Receiver.stopCh := Receiver.ChanOpen; Receiver.stopOnce := false;
     Receiver.wg := 1%nat; Receiver.tracer := Some "udp" |}.

Definition stoppedState : Receiver.state :=
  {| Receiver.stopCh := Receiver.ChanClosed; Receiver.stopOnce := true;
     Receiver.wg := 0%nat; Receiver.tracer := Some "udp" |}.

(** Latencies the simulation can produce: a whole number of milliseconds
    below 150. *)
Definition wholeMs (h : hopInfo) : Prop :=
  exists k, 0 <= k < 150 /\ latency h = Go.float64_of_int k.

(** The whole-millisecond values, and the check that on two of them the
    binary64 order is the order of the integers. *)
Definition msRange : list Z := map Z.of_nat (seq 0 150).

Definition orderAgrees (a b : Z) : bool :=
  Bool.eqb (PrimFloat.ltb (Go.float64_of_int a) (Go.float64_of_int b)) (a <? b)
  && Bool.eqb (PrimFloat.leb (Go.float64_of_int a) (Go.float64_of_int b)) (a <=? b).

(** One step of the summing-up loop, on the running total alone. *)
Definition maxStep (acc : float) (hop : hopInfo) : float :=
  if PrimFloat.ltb acc (latency hop) then latency hop else acc.

(** The ttl values [t, t+1, ..., t+n-1]. *)
Fixpoint ttlsFrom (t : Z) (n : nat) : list Z :=
  match n with
  | O => []
  | S n' => t :: ttlsFrom (t + 1) n'
  end.

(** How a finished run of the loop extends the hop sequence. *)
Definition reachedBy (addr : string) (new : list hopInfo) : Prop :=
  exists pre h,
    new = (pre ++ [h])%list /\ ip h = addr /\
    Forall (fun h' => ip h' <> addr) pre.

(** A context that never fires. *)
Definition neverDone : Context := {| ctxErr := fun _ => None |}.

(** The same configuration with another hop budget. *)
Definition withMaxHops (m : Z) (c : Config) : Config :=
  {| Targets := Targets c; CollectionInterval := CollectionInterval c;
     Timeout := Timeout c; Protocol := Protocol c; MaxHops := m;
     PacketSize := PacketSize c; Retries := Retries c;
     EnableGeolocation := EnableGeolocation c;
     EnableASNLookup := EnableASNLookup c |}.

(** A concrete run: the target resolves to an address the simulation only
    answers with from ttl 15 on, the context never fires, and the draws come
    from a linear congruential sequence. *)
Definition sampleResolver : Resolver := fun _ => inl "93.184.216.34".

Definition sampleSource : Rand.Source :=
  {| Rand.draws := fun n =>
       Z.of_nat n * 6364136223846793005 + 1442695040888963407;
     Rand.cursor := 0 |}.

Definition sampleRun
  : (option traceResult * option Go.error) * Rand.Source :=
  trace sampleResolver neverDone exampleTarget lifecycleConfig sampleSource.

Definition sampleResult : traceResult :=
  Eval vm_compute in
    match fst (fst sampleRun) with Some r => r | None => freshResult end.

(** The hop of [sampleResult] that answered with the target's address. *)
Definition sampleTargetHop : hopInfo :=
  Eval vm_compute in last (hops sampleResult) (newHop 0).

(** A context whose deadline has passed when the third iteration starts. *)
Definition expiresAtThree : Context :=
  {| ctxErr := fun t => if 3 <=? t then Some Go.DeadlineExceeded else None |}.

(** The attribute keys under which the projections publish geolocation and
    ASN data. *)
Definition geoAsnKeys : list string :=
  ["city"; "country"; "asn"; "provider";
   "geo.city"; "geo.country"; "network.asn"; "network.provider"].

Definition carriesGeoAsn (m : Map) : Prop :=
  exists k, In k geoAsnKeys /\ In k (keys m).

Definition carriesGeoAsnb (m : Map) : bool :=
  existsb (fun k => existsb (String.eqb k) geoAsnKeys) (keys m).

(** A hop with its four enrichment fields blanked, and a result with every
    hop so treated. *)
Definition scrub (h : hopInfo) : hopInfo :=
  set_asn EmptyString EmptyString (set_geo EmptyString EmptyString h).

Definition scrubResult (r : traceResult) : traceResult :=
  {| hops := map scrub (hops r); totalLatency := totalLatency r;
     targetReached := targetReached r |}.

(** The result of the repository's metrics test: its first hop has all four
    enrichment fields set. *)
Definition enrichedResult : traceResult :=
  {| hops :=
       [ set_asn "AS15169" "Google"
           (set_geo "San Francisco" "US"
              (set_jitter 0.5%float
                 (set_hostname "router.local"
                    (set_latency 2.5%float
                       (set_ip "192.168.1.1" (newHop 1))))));
         set_jitter 0x1.3333333333333p+0%float              (* 1.2 *)
           (set_packetLoss 5%float
              (set_hostname "gateway.isp.net"
                 (set_latency 0x1.4666666666666p+3%float    (* 10.2 *)
                    (set_ip "10.0.0.1" (newHop 2))))) ];
     totalLatency := 0x1.9666666666666p+3%float;            (* 12.7 *)
     targetReached := true |}.

(** A span's duration in nanoseconds, and in milliseconds as a [float64]. *)
Definition duration (s : ptrace.Span) : Z := ptrace.spEnd s - ptrace.spStart s.

Definition durationMs (s : ptrace.Span) : float :=
  PrimFloat.div (Go.float64_of_int (duration s)) (Go.float64_of_int 1000000).

(** A target with a user tag named like an enrichment attribute. *)
Definition cityTagged : TargetConfig :=
  {| Endpoint := "example.com"; Port := 80; Tags := [("city", "Paris")] |}.

(** * More of the package *)

(** ** factory.go *)

(** [createDefaultConfig].  The embedded [confighttp.ServerConfig] (endpoint
    0.0.0.0:8888), which no function of the package reads, is not part of
    [Config] here; durations are nanoseconds. *)
Definition createDefaultConfig : Config :=
  {| Targets := [];
     CollectionInterval := 60 * 1000000000;
     Timeout := 10 * 1000000000;
     Protocol := "udp";
     MaxHops := 30;
     PacketSize := 56;
     Retries := 3;
     EnableGeolocation := true;
     EnableASNLookup := true |}.

(** The configuration a user gets by listing targets and leaving the rest
    to the defaults. *)
Definition withTargets (ts : list TargetConfig) (c : Config) : Config :=
  {| Targets := ts; CollectionInterval := CollectionInterval c;
     Timeout := Timeout c; Protocol := Protocol c; MaxHops := MaxHops c;
     PacketSize := PacketSize c; Retries := Retries c;
     EnableGeolocation := EnableGeolocation c;
     EnableASNLookup := EnableASNLookup c |}.

(** What [Validate] asks of one target. *)
Definition targetOk (protocol : string) (t : TargetConfig) : Prop :=
  Endpoint t <> EmptyString /\ (protocol = "icmp" \/ 0 < Port t).

(** The message [Validate] has for a target it rejects. *)
Definition targetComplaint (protocol : string) (i : Z) (t : TargetConfig)
  : string :=
  if String.eqb (Endpoint t) EmptyString
  then "target[" ++ Go.itoa i ++ "]: endpoint cannot be empty"
  else "target[" ++ Go.itoa i ++ "]: port must be specified for "
       ++ protocol ++ " protocol".

(** A configuration whose second target lacks the port udp needs. *)
Definition secondTargetBad : Config :=
  withTargets [ {| Endpoint := "example.com"; Port := 80; Tags := [] |};
                {| Endpoint := "example.org"; Port := 0; Tags := [] |};
                {| Endpoint := EmptyString; Port := 0; Tags := [] |} ]
              createDefaultConfig.

(** ** tracer.go: what the simulation puts in a hop *)

(** The measurements of a simulated hop: whole numbers of milliseconds (or
    percent) in the ranges of the draws, a latency of at least 1 ms except at
    ttl 13 and 14, which time out, and the target's address from ttl 15 on. *)
Definition simulatedValues (addr : string) (h : hopInfo) : Prop :=
  (exists k, 0 <= k < 150 /\ latency h = Go.float64_of_int k /\
             (ttl h <= 12 \/ 15 <= ttl h -> 1 <= k)) /\
  (exists k, 0 <= k < 20 /\ packetLoss h = Go.float64_of_int k) /\
  (exists k, 0 <= k < 5 /\ jitter h = Go.float64_of_int k) /\
  (13 <= ttl h <= 14 ->
   ip h = EmptyString /\ hostname h = EmptyString /\
   latency h = 0%float /\ jitter h = 0%float) /\
  (15 <= ttl h -> ip h = addr).

(** The enrichment fields a disabled lookup leaves empty. *)
Definition unenriched (config : Config) (h : hopInfo) : Prop :=
  (EnableGeolocation config = false ->
   city h = EmptyString /\ country h = EmptyString) /\
  (EnableASNLookup config = false ->
   asn h = EmptyString /\ provider h = EmptyString).

(** ** receiver.go: reading the batches *)

(** The gauges of a batch by name. *)
Definition isLatencyMetric (m : pmetric.Metric) : bool :=
  String.eqb (pmetric.Name m) "ztrace.hop.latency".
Definition isLossMetric (m : pmetric.Metric) : bool :=
  String.eqb (pmetric.Name m) "ztrace.hop.packet_loss".

(** [pcommon.Map.Get]: the value of the first entry with the key. *)
Fixpoint Get (k : string) (m : Map) : option Value :=
  match m with
  | [] => None
  | (k', v) :: rest => if String.eqb k' k then Some v else Get k rest
  end.

(** A gauge with one data point taken at [ts]. *)
Definition oneSampleAt (ts : Z) (m : pmetric.Metric) : Prop :=
  exists v attrs,
    pmetric.Gauge m
    = [ {| pmetric.dpTimestamp := ts; pmetric.dpValue := v;
           pmetric.dpAttributes := attrs |} ].

(** A target whose tags shadow two of the receiver's own attributes. *)
Definition shadowingTarget : TargetConfig :=
  {| Endpoint := "example.com"; Port := 80;
     Tags := [("env", "prod"); ("ztrace.target", "alias");
              ("service.name", "edge")] |}.


(** An optional string attribute. *)
Definition strIf (cond : bool) (v : string) : option Value :=
  if cond then Some (ValueStr v) else None.

(** An optional floating-point attribute, present when the value is
    greater than zero. *)
Definition doubleIfPositive (v : float) : option Value :=
  if PrimFloat.ltb 0%float v then Some (ValueDouble v) else None.

(** ** receiver.go: runTrace and collect *)

(** What one invocation does to the outside: the receiver's own log lines
    and the batches it hands to its consumers. *)
Inductive effect : Type :=
| LogDebug (msg target : string)
| LogError (msg : string) (target : option string) (err : Go.error)
| ConsumeMetrics (md : pmetric.Metrics)
| ConsumeTraces (td : ptrace.Traces)
| NilDereference.   (* a nil result used without an error: a panic *)

(** The two consumer fields of the receiver, each possibly nil, with the
    error the consumer answers a batch with. *)
Record Sinks : Type := {
  consumer : option (pmetric.Metrics -> option Go.error);
  traceConsumer : option (ptrace.Traces -> option Go.error)
}.

(** What one invocation finds around it: the resolver, the context made by
    [context.WithTimeout], and the readings of [time.Now()] in
    [convertToMetrics] and [convertToTraces]. *)
Record Surroundings : Type := {
  resolver : Resolver;
  context : Context;
  nowMetrics : Time.Time;
  nowTraces1 : Time.Time;
  nowTraces2 : Time.Time
}.

Definition deliverMetrics (config : Config) (sinks : Sinks)
  (env : Surroundings) (result : traceResult) (target : TargetConfig)
  : list effect :=
  match consumer sinks with
  | None => []
  | Some consume =>
      let metrics := convertToMetrics config (nowMetrics env) result target in
      ConsumeMetrics metrics
      :: match consume metrics with
         | Some err => [LogError "Failed to consume metrics" None err]
         | None => []
         end
  end.

Definition deliverTraces (config : Config) (sinks : Sinks)
  (env : Surroundings) (result : traceResult) (target : TargetConfig)
  : list effect :=
  match traceConsumer sinks with
  | None => []
  | Some consume =>
      let traces := convertToTraces config (nowTraces1 env) (nowTraces2 env)
                                    result target in
      ConsumeTraces traces
      :: match consume traces with
         | Some err => [LogError "Failed to consume traces" None err]
         | None => []
         end
  end.

(** [runTrace]. *)
Definition runTrace (config : Config) (sinks : Sinks) (env : Surroundings)
  (target : TargetConfig) : Rand.M (list effect) :=
  out <- trace (resolver env) (context env) target config ;;
  Rand.ret
    (LogDebug "Running trace" (Endpoint target)
     :: match out with
        | (_, Some err) =>
            [LogError "Failed to trace target" (Some (Endpoint target)) err]
        | (Some result, None) =>
            (deliverMetrics config sinks env result target
             ++ deliverTraces config sinks env result target)%list
        | (None, None) => [NilDereference]
        end).




(** The batches among the effects, and the invocations among them. *)
Definition isDelivery (e : effect) : bool :=
  match e with
  | ConsumeMetrics _ | ConsumeTraces _ => true
  | _ => false
  end.

Definition isInvocation (e : effect) : bool :=
  match e with
  | LogDebug msg _ => String.eqb msg "Running trace"
  | _ => false
  end.


(** ** iperfreceiver: config.go

    The configuration of the iperf receiver and its two [Validate] methods.
    An error built with [multierr.Append] is the list of the errors appended
    so far, [nil] being the empty list; a method with a pointer receiver
    returns the record it leaves behind along with its result.  The embedded
    [ControllerConfig] and [MetricsBuilderConfig], which [Validate] does not
    read, are not part of [Config] here. *)

Module Iperf.

Definition errInvalidHost : string := "host cannot be empty".
Definition errInvalidPort : string := "port must be between 1 and 65535".
Definition errInvalidDuration : string := "duration must be positive".
Definition errInvalidStreams : string := "streams must be positive".
Definition errNoTargets : string := "at least one target must be configured".

(** [time.Second], in nanoseconds. *)
Definition Second : Z := 1000000000.

Record TargetConfig : Type := {
  Host : string;
  Port : Z;
  Duration : Z;          (* a time.Duration: nanoseconds *)
  Streams : Z;
  Protocol : string;
  Reverse : bool;
  Bandwidth : string;
  Window : string;
  MSS : Z;
  NoDelay : bool;
  OmitSec : Z;
  ZeroCopy : bool;
  Congestion : string
}.

Record Config : Type := {
  Targets : list TargetConfig;
  Mode : string;
  ServerPort : Z
}.

Definition set_Duration (v : Z) (c : TargetConfig) : TargetConfig :=
  {| Host := Host c; Port := Port c; Duration := v; Streams := Streams c;
     Protocol := Protocol c; Reverse := Reverse c; Bandwidth := Bandwidth c;
     Window := Window c; MSS := MSS c; NoDelay := NoDelay c;
     OmitSec := OmitSec c; ZeroCopy := ZeroCopy c;
     Congestion := Congestion c |}.
Definition set_Streams (v : Z) (c : TargetConfig) : TargetConfig :=
  {| Host := Host c; Port := Port c; Duration := Duration c; Streams := v;
     Protocol := Protocol c; Reverse := Reverse c; Bandwidth := Bandwidth c;
     Window := Window c; MSS := MSS c; NoDelay := NoDelay c;
     OmitSec := OmitSec c; ZeroCopy := ZeroCopy c;
     Congestion := Congestion c |}.
Definition set_Protocol (v : string) (c : TargetConfig) : TargetConfig :=
  {| Host := Host c; Port := Port c; Duration := Duration c;
     Streams := Streams c; Protocol := v; Reverse := Reverse c;
     Bandwidth := Bandwidth c; Window := Window c; MSS := MSS c;
     NoDelay := NoDelay c; OmitSec := OmitSec c; ZeroCopy := ZeroCopy c;
     Congestion := Congestion c |}.
Definition set_Mode (v : string) (c : Config) : Config :=
  {| Targets := Targets c; Mode := v; ServerPort := ServerPort c |}.

(** [multierr.Append(err, e)] for a non-nil [e]. *)
Definition Append {A : Type} (err : list A) (e : A) : list A :=
  (err ++ [e])%list.

(** [TargetConfig.Validate]: the errors, and the target with its defaults
    filled in. *)
Definition TargetConfig_Validate (cfg : TargetConfig)
  : list string * TargetConfig :=
  let err : list string := [] in
  let err := if String.eqb (Host cfg) EmptyString
             then Append err errInvalidHost else err in
  let err := if (Port cfg <? 1) || (65535 <? Port cfg)
             then Append err errInvalidPort else err in
  let cfg := if Duration cfg <=? 0
             then set_Duration (10 * Second) cfg else cfg in
  let '(err, cfg) :=
    if Streams cfg <? 0 then (Append err errInvalidStreams, cfg)
    else if Streams cfg =? 0 then (err, set_Streams 1 cfg)
    else (err, cfg) in
  let '(err, cfg) :=
    if String.eqb (Protocol cfg) EmptyString
    then (err, set_Protocol "tcp" cfg)
    else if negb (String.eqb (Protocol cfg) "tcp")
            && negb (String.eqb (Protocol cfg) "udp")
            && negb (String.eqb (Protocol cfg) "sctp")
    then (Append err ("invalid protocol: " ++ Protocol cfg
                      ++ ", must be tcp, udp, or sctp"), cfg)
    else (err, cfg) in
  let err := if OmitSec cfg <? 0
             then Append err "omit seconds cannot be negative" else err in
  let err := if MSS cfg <? 0
             then Append err "MSS cannot be negative" else err in
  (err, cfg).

(** An error of [Config.Validate]: one of its own, or the errors of the
    target at an index, wrapped by [fmt.Errorf("target[%d]: %w", ...)]. *)
Inductive issue : Type :=
| Plain (msg : string)
| AtTarget (i : Z) (causes : list string).

(** The loop over the targets.  [range] hands the body a copy of each
    target, so the defaults the target's [Validate] fills in are dropped. *)
Fixpoint validateTargets (i : Z) (ts : list TargetConfig) (err : list issue)
  : list issue :=
  match ts with
  | [] => err
  | target :: rest =>
      let targetErr := fst (TargetConfig_Validate target) in
      validateTargets (i + 1) rest
        (match targetErr with
         | [] => err
         | _ => Append err (AtTarget i targetErr)
         end)
  end.

(** [Config.Validate]: the errors, and the configuration with its mode
    defaulted. *)
Definition Config_Validate (cfg : Config) : list issue * Config :=
  let err : list issue := [] in
  let err := if negb (String.eqb (Mode cfg) "client")
                && negb (String.eqb (Mode cfg) "server")
                && negb (String.eqb (Mode cfg) EmptyString)
             then Append err (Plain ("invalid mode: " ++ Mode cfg
                                     ++ ", must be 'client' or 'server'"))
             else err in
  let cfg := if String.eqb (Mode cfg) EmptyString
             then set_Mode "client" cfg else cfg in
  let err := if String.eqb (Mode cfg) "server"
             then (if (ServerPort cfg <? 1) || (65535 <? ServerPort cfg)
                   then Append err (Plain errInvalidPort) else err)
             else err in
  let err := if String.eqb (Mode cfg) "client"
             then validateTargets 0 (Targets cfg)
                    (if Z.of_nat (List.length (Targets cfg)) =? 0
                     then Append err (Plain errNoTargets) else err)
             else err in
  (err, cfg).

(** What [TargetConfig.Validate] asks of a target. *)
Definition acceptable (t : TargetConfig) : Prop :=
  Host t <> EmptyString /\ 1 <= Port t <= 65535 /\ 0 <= Streams t /\
  (Protocol t = EmptyString \/ Protocol t = "tcp" \/ Protocol t = "udp"
   \/ Protocol t = "sctp") /\
  0 <= OmitSec t /\ 0 <= MSS t.

(** A target that names its host and port and leaves the rest unset. *)
Definition minimalTarget : TargetConfig :=
  {| Host := "localhost"; Port := 5201; Duration := 0; Streams := 0;
     Protocol := EmptyString; Reverse := false; Bandwidth := EmptyString;
     Window := EmptyString; MSS := 0; NoDelay := false; OmitSec := 0;
     ZeroCopy := false; Congestion := EmptyString |}.

End Iperf.

(** A client configuration that relies on the defaults of its one target. *)
Definition minimalClient : Iperf.Config :=
  {| Iperf.Targets := [Iperf.minimalTarget]; Iperf.Mode := EmptyString;
     Iperf.ServerPort := 0 |}.

(** A configuration with a mode that does not exist, and nothing else
    right. *)
Definition wrongMode : Iperf.Config :=
  {| Iperf.Targets := []; Iperf.Mode := "relay"; Iperf.ServerPort := 0 |}.

(** ** iperfreceiver: scraper.go

    One client test and the recording of its report.  The client and the
    report come from the go-iperf library and the data points go to the
    generated metrics builder, neither of which is in the repository: a
    report has the fields the scraper reads, typed as it uses them (counts
    are [int], rates and percentages [float64]), and a call of the builder
    or of the client is the record of that call. *)

Module Scraper.

Record Sum : Type := {
  Bytes : Z;
  BitsPerSecond : float;
  Retransmits : Z;
  Jitter : float;
  LostPercent : float
}.

Record CPUUtilizationPercent : Type := {
  HostTotal : float;
  RemoteTotal : float
}.

Record End : Type := {
  SumSent : option Sum;
  SumReceived : option Sum;
  CPUUtilization : option CPUUtilizationPercent
}.

Record Report : Type := { ReportEnd : option End }.

(** The [Record...DataPoint] calls on the metrics builder. *)
Inductive point : Type :=
| IperfTestDuration (ts : Z) (val : float) (protocol : string)
| IperfBandwidth (ts : Z) (val : float) (protocol direction : string)
                 (streams : Z)
| IperfTransfer (ts : Z) (val : Z) (protocol direction : string)
| IperfRetransmits (ts : Z) (val : Z) (protocol : string)
| IperfJitter (ts : Z) (val : float) (protocol direction : string)
| IperfPacketLoss (ts : Z) (val : float) (protocol direction : string)
| IperfCpuUtilization (ts : Z) (val : float) (protocol direction : string)
| IperfTestError (ts : Z) (val : Z) (message : string).

(** What a test does besides talking to the server. *)
Inductive action : Type :=
| LogWarn (msg host : string) (port : Z)
| LogError (msg host : string) (port : Z) (err : option string)
| Resource (host : string) (port : Z)   (* the resource of the next points *)
| Record (p : point).

Inductive proto : Type := PROTO_TCP | PROTO_UDP | PROTO_SCTP.

(** The setter calls on the client. *)
Inductive setting : Type :=
| SetPort (v : Z)
| SetJSON (v : bool)
| SetStreams (v : Z)
| SetTimeSec (v : Z)
| SetOmitSec (v : Z)
| SetReverse (v : bool)
| SetProto (v : proto)
| SetBandwidth (v : string)
| SetZerocopy (v : bool)
| SetNoDelay (v : bool)
| SetMSS (v : Z)
| SetWindow (v : string)
| SetCongestionAlgorithm (v : string).

(** [time.Duration.Seconds]: whole seconds plus the rest as a fraction. *)
Definition Seconds (d : Z) : float :=
  PrimFloat.add
    (Go.float64_of_int (Z.quot d Iperf.Second))
    (PrimFloat.div (Go.float64_of_int (Z.rem d Iperf.Second))
                   (Go.float64_of_int 1000000000)).

(** [if cond { ... }] around a block of calls. *)
Definition only {A : Type} (cond : bool) (calls : list A) : list A :=
  if cond then calls else [].

(** The first part of [runClientTest]: the client's settings, in order. *)
Definition clientSettings (target : Iperf.TargetConfig) : list setting :=
  ([ SetPort (Iperf.Port target);
     SetJSON true;
     SetStreams (Iperf.Streams target);
     SetTimeSec (Go.int64_of_float64 (Seconds (Iperf.Duration target)));
     SetOmitSec (Iperf.OmitSec target);
     SetReverse (Iperf.Reverse target) ]
   ++ (if String.eqb (Iperf.Protocol target) "udp" then
         SetProto PROTO_UDP
         :: only (negb (String.eqb (Iperf.Bandwidth target) EmptyString))
                 [SetBandwidth (Iperf.Bandwidth target)]
       else if String.eqb (Iperf.Protocol target) "sctp" then
         [SetProto PROTO_SCTP]
       else
         SetProto PROTO_TCP
         :: only (Iperf.ZeroCopy target) [SetZerocopy true]
         ++ only (Iperf.NoDelay target) [SetNoDelay true]
         ++ only (0 <? Iperf.MSS target) [SetMSS (Iperf.MSS target)]
         ++ only (negb (String.eqb (Iperf.Window target) EmptyString))
                 [SetWindow (Iperf.Window target)]
         ++ only (negb (String.eqb (Iperf.Congestion target) EmptyString))
                 [SetCongestionAlgorithm (Iperf.Congestion target)]))%list.

(** [recordMetrics]. *)
Definition recordMetrics (report : Report) (target : Iperf.TargetConfig)
  (timestamp : Z) (testDuration : float) : list action :=
  let protocol := Iperf.Protocol target in
  match ReportEnd report with
  | None =>
      [LogWarn "Report has no end section" (Iperf.Host target)
               (Iperf.Port target)]
  | Some e =>
      ([Record (IperfTestDuration timestamp testDuration protocol)]
       ++ match SumSent e with
          | Some s =>
              [ Record (IperfBandwidth timestamp (BitsPerSecond s) protocol
                                       "send" (Iperf.Streams target));
                Record (IperfTransfer timestamp (Bytes s) protocol "send") ]
          | None => []
          end
       ++ match SumReceived e with
          | Some s =>
              [ Record (IperfBandwidth timestamp (BitsPerSecond s) protocol
                                       "receive" (Iperf.Streams target));
                Record (IperfTransfer timestamp (Bytes s) protocol "receive") ]
          | None => []
          end
       ++ match SumSent e with
          | Some s =>
              only (String.eqb protocol "tcp" && (0 <? Retransmits s))
                   [Record (IperfRetransmits timestamp (Retransmits s)
                                             protocol)]
          | None => []
          end
       ++ only (String.eqb protocol "udp")
               match SumReceived e with
               | Some s =>
                   only (PrimFloat.ltb 0%float (Jitter s))
                        [Record (IperfJitter timestamp (Jitter s) protocol
                                             "receive")]
                   ++ only (PrimFloat.ltb 0%float (LostPercent s))
                           [Record (IperfPacketLoss timestamp (LostPercent s)
                                                    protocol "receive")]
               | None => []
               end
       ++ match CPUUtilization e with
          | Some c =>
              only (PrimFloat.ltb 0%float (HostTotal c))
                   [Record (IperfCpuUtilization timestamp (HostTotal c)
                                                protocol "send")]
              ++ only (PrimFloat.ltb 0%float (RemoteTotal c))
                      [Record (IperfCpuUtilization timestamp (RemoteTotal c)
                                                   protocol "receive")]
          | None => []
          end)%list
  end.

(** The second part of [runClientTest], after the settings: [started] is
    the error of [client.Start()], [report] what [client.Report()] returns
    ([None] for nil), [testDuration] the seconds the test took. *)
Definition runClientTest (target : Iperf.TargetConfig) (timestamp : Z)
  (started : option string) (report : option Report) (testDuration : float)
  : list action :=
  match started with
  | Some err =>
      [ LogError "Failed to run iperf test" (Iperf.Host target)
                 (Iperf.Port target) (Some err);
        Record (IperfTestError timestamp 1 err) ]
  | None =>
      match report with
      | None =>
          [LogError "Failed to get iperf report" (Iperf.Host target)
                    (Iperf.Port target) None]
      | Some r =>
          Resource (Iperf.Host target) (Iperf.Port target)
          :: recordMetrics r target timestamp testDuration
      end
  end.

(** The data points among the actions. *)
Definition points (actions : list action) : list point :=
  flat_map (fun a => match a with Record p => [p] | _ => [] end) actions.

Definition pointTimestamp (p : point) : Z :=
  match p with
  | IperfTestDuration ts _ _ | IperfBandwidth ts _ _ _ _
  | IperfTransfer ts _ _ _ | IperfRetransmits ts _ _ | IperfJitter ts _ _ _
  | IperfPacketLoss ts _ _ _ | IperfCpuUtilization ts _ _ _
  | IperfTestError ts _ _ => ts
  end.

(** The protocol attribute of a point; the error point has none. *)
Definition pointProtocol (p : point) : option string :=
  match p with
  | IperfTestDuration _ _ a | IperfBandwidth _ _ a _ _
  | IperfTransfer _ _ a _ | IperfRetransmits _ _ a | IperfJitter _ _ a _
  | IperfPacketLoss _ _ a _ | IperfCpuUtilization _ _ a _ => Some a
  | IperfTestError _ _ _ => None
  end.

(** The protocol a kind of point is peculiar to, if any. *)
Definition peculiarTo (p : point) : option string :=
  match p with
  | IperfRetransmits _ _ _ => Some "tcp"
  | IperfJitter _ _ _ _ | IperfPacketLoss _ _ _ _ => Some "udp"
  | _ => None
  end.

(** Settings that only make sense for TCP, and the bandwidth, which the
    scraper sets for UDP. *)
Definition tcpOnly (s : setting) : bool :=
  match s with
  | SetZerocopy _ | SetNoDelay _ | SetMSS _ | SetWindow _
  | SetCongestionAlgorithm _ => true
  | _ => false
  end.

Definition isBandwidth (s : setting) : bool :=
  match s with SetBandwidth _ => true | _ => false end.

Definition protoOf (s : setting) : list proto :=
  match s with SetProto p => [p] | _ => [] end.

End Scraper.

(** Unfolding the two [Validate] methods of the iperf receiver. *)
Ltac iperf_unfold :=
  cbv beta iota zeta
      delta [Iperf.TargetConfig_Validate Iperf.Append app Iperf.Host
             Iperf.Port Iperf.Duration Iperf.Streams Iperf.Protocol
             Iperf.Reverse Iperf.Bandwidth Iperf.Window Iperf.MSS
             Iperf.NoDelay Iperf.OmitSec Iperf.ZeroCopy Iperf.Congestion
             Iperf.set_Duration Iperf.set_Streams Iperf.set_Protocol].

Ltac iperf_config_unfold :=
  cbv beta iota zeta
      delta [Iperf.Config_Validate Iperf.Targets Iperf.Mode Iperf.ServerPort
             Iperf.set_Mode].

(** * Properties *)

(** ** Shapes of the two batches *)

Lemma allMetrics_convertToMetrics config now result target :
  allMetrics (convertToMetrics config now result target)
  = (flat_map (hopMetrics config (NewTimestampFromTime now)) (hops result)
     ++ (if PrimFloat.ltb 0%float (totalLatency result)
         then [totalLatencyMetric (NewTimestampFromTime now) result] else [])
     ++ [hopCountMetric (NewTimestampFromTime now) result])%list.
Proof.
  unfold allMetrics, convertToMetrics.
  cbn [flat_map pmetric.scopeMetrics pmetric.metrics].
  now rewrite !app_nil_r.
Qed.

Lemma allSpans_convertToTraces config now1 now2 result target :
  let startTime :=
    NewTimestampFromTime
      (Time.Add now1 (Time.negMillis (totalLatency result))) in
  allSpans (convertToTraces config now1 now2 result target)
  = rootSpan startTime (NewTimestampFromTime now2) result target
    :: map (hopSpan config startTime) (hops result).
Proof.
  unfold allSpans, convertToTraces.
  cbn [flat_map ptrace.scopeSpans ptrace.spans].
  now rewrite !app_nil_r.
Qed.

(** ** The jitter gauge (C1) *)

Lemma filter_jitter_hopMetrics config ts hop :
  filter isJitterMetric (hopMetrics config ts hop)
  = if PrimFloat.ltb 0%float (jitter hop) then [jitterMetric ts hop] else [].
Proof.
  unfold hopMetrics.
  destruct (PrimFloat.ltb 0 (packetLoss hop)), (PrimFloat.ltb 0 (jitter hop));
    reflexivity.
Qed.

Lemma filter_jitter_hops config ts hs :
  filter isJitterMetric (flat_map (hopMetrics config ts) hs)
  = map (jitterMetric ts)
        (filter (fun h => PrimFloat.ltb 0%float (jitter h)) hs).
Proof.
  induction hs as [|h hs IH]; [reflexivity|].
  cbn [flat_map filter].
  rewrite filter_app, filter_jitter_hopMetrics, IH.
  destruct (PrimFloat.ltb 0 (jitter h)); reflexivity.
Qed.

(** [traceHop] step by step: the scenario, then the two optional draws. *)
Lemma traceHop_unfold t target config src :
  exists h0 s0 h1 jit s2,
    hopScenario t target config (newHop t) src = (h0, s0) /\
    (h1 = h0 \/ exists v, h1 = set_packetLoss v h0) /\
    traceHop t target config src
    = (when (PrimFloat.ltb 0%float (latency h0)) (set_jitter jit) h1, s2).
Proof.
  unfold traceHop.
  destruct (hopScenario t target config (newHop t) src) as [h0 s0] eqn:E0.
  exists h0, s0.
  rand_unfold. rewrite E0. rand_unfold.
  destruct (PrimFloat.ltb _ 0x1.999999999999ap-4) eqn:F; rand_unfold; hop_simpl;
    destruct (PrimFloat.ltb 0 (latency h0)) eqn:L; rand_unfold; hop_simpl.
  - eexists (set_packetLoss _ h0), _, _. split; [reflexivity|].
    split; [right; eexists; reflexivity|reflexivity].
  - eexists (set_packetLoss _ h0), 0%float, _. split; [reflexivity|].
    split; [right; eexists; reflexivity|reflexivity].
  - eexists h0, _, _. split; [reflexivity|]. split; [now left|reflexivity].
  - eexists h0, 0%float, _. split; [reflexivity|]. split; [now left|reflexivity].
Qed.

(** What the scenario leaves in a hop: its ttl, a whole number of
    milliseconds below 150 as latency, and no jitter yet. *)
Lemma hopScenario_spec t target config src :
  let h0 := fst (hopScenario t target config (newHop t) src) in
  ttl h0 = t /\ jitter h0 = 0%float /\
  exists k, 0 <= k < 150 /\ latency h0 = Go.float64_of_int k.
Proof.
  unfold hopScenario, when. rand_unfold.
  repeat match goal with
         | |- context [if ?b then _ else _] => destruct b
         end; hop_simpl; (split; [reflexivity|split; [reflexivity|]]);
    try (eexists; split; [|reflexivity];
         match goal with
         | |- context [?d mod ?n] =>
             pose proof (Z.mod_pos_bound d n ltac:(lia)); lia
         end).
  all: exists 0; split; [lia|reflexivity].
Qed.

(** [traceHop] draws a jitter only after it has seen a positive latency. *)
Lemma traceHop_jitter_needs_latency t target config src :
  PrimFloat.ltb 0%float (latency (fst (traceHop t target config src))) = false ->
  jitter (fst (traceHop t target config src)) = 0%float.
Proof.
  destruct (traceHop_unfold t target config src)
    as (h0 & s0 & h1 & jit & s2 & E0 & H1 & ->).
  pose proof (hopScenario_spec t target config src) as (_ & J0 & _).
  rewrite E0 in J0. unfold when.
  destruct (PrimFloat.ltb 0 (latency h0)) eqn:L;
    destruct H1 as [->|[v ->]]; hop_simpl; intros H; congruence.
Qed.

(** C1 (as amended): in [convertToMetrics] the jitter gauge samples are
    exactly those of the hops whose jitter is greater than zero, in hop order;
    the hop's latency plays no part.  A hop built by [traceHop] without a
    positive latency has jitter 0 and hence no jitter sample. *)
Theorem jitter_samples_follow_jitter :
  forall config now result target,
    filter isJitterMetric
           (allMetrics (convertToMetrics config now result target))
    = map (jitterMetric (NewTimestampFromTime now))
          (filter (fun h => PrimFloat.ltb 0%float (jitter h)) (hops result)).
Proof.
  intros. rewrite allMetrics_convertToMetrics, !filter_app, filter_jitter_hops.
  destruct (PrimFloat.ltb 0 (totalLatency result)); cbn [filter];
    change (isJitterMetric (hopCountMetric _ _)) with false;
    try change (isJitterMetric (totalLatencyMetric _ _)) with false;
    now rewrite app_nil_r.
Qed.

(** C1 (as stated) fails: a hop with latency 0 and jitter 3 gets a jitter
    gauge sample. *)
Lemma jitter_sample_without_latency :
  latency unmeasuredHop = 0%float /\
  In (jitterMetric (NewTimestampFromTime 1000) unmeasuredHop)
     (allMetrics
        (convertToMetrics bareConfig 1000
           {| hops := [unmeasuredHop]; totalLatency := 0%float;
              targetReached := false |}
           exampleTarget)).
Proof.
  split; [reflexivity|].
  rewrite allMetrics_convertToMetrics. cbn. right. left. reflexivity.
Qed.

(** ** Identifiers (C2, C10) *)

Lemma map_spTraceID_hopSpan config startTime hs :
  map ptrace.spTraceID (map (hopSpan config startTime) hs)
  = repeat traceID (List.length hs).
Proof.
  induction hs as [|h hs IH]; [reflexivity|].
  cbn [map List.length repeat]. now rewrite IH.
Qed.

(** C2: the code does not have the property.  Whatever the run, every span
    of the batch carries the all-zero trace identifier. *)
Theorem trace_id_is_always_zero :
  forall config now1 now2 result target,
    map ptrace.spTraceID
        (allSpans (convertToTraces config now1 now2 result target))
    = repeat (repeat 0 16) (S (List.length (hops result))).
Proof.
  intros. rewrite allSpans_convertToTraces.
  cbn [map repeat]. rewrite map_spTraceID_hopSpan. reflexivity.
Qed.

(** C2, at a concrete pair of runs: two targets traced at different times
    get the same trace identifier and the same span identifiers. *)
Lemma two_runs_collide :
  map (fun s => (ptrace.spTraceID s, ptrace.spSpanID s))
      (allSpans (convertToTraces bareConfig 1000 1001 testedResult exampleTarget))
  = map (fun s => (ptrace.spTraceID s, ptrace.spSpanID s))
        (allSpans (convertToTraces bareConfig 5000 5002 testedResult otherTarget)).
Proof. reflexivity. Qed.

Lemma bytes8_inj : forall a b, bytes8 a = bytes8 b -> a = b.
Proof. intros a b H. now injection H. Qed.

Lemma NoDup_map_bytes8 ts : NoDup ts -> NoDup (map bytes8 ts).
Proof.
  induction 1 as [|t ts Hnotin _ IH]; cbn [map]; constructor; [|exact IH].
  rewrite in_map_iff. intros (t' & E & Hin).
  apply bytes8_inj in E. now subst t'.
Qed.

Lemma to_byte_small z : 0 <= z <= 255 -> Go.to_byte z = z.
Proof. intros H. unfold Go.to_byte. apply Z.mod_small. lia. Qed.

Lemma map_hopSpanID config startTime hs :
  Forall (fun h => 1 <= ttl h <= 255) hs ->
  map ptrace.spSpanID (map (hopSpan config startTime) hs)
  = map bytes8 (map ttl hs).
Proof.
  induction 1 as [|h hs Hh _ IH]; [reflexivity|].
  cbn [map]. rewrite IH. f_equal.
  change (ptrace.spSpanID (hopSpan config startTime h)) with (hopSpanID h).
  unfold hopSpanID. now rewrite to_byte_small by lia.
Qed.

(** C10: within one batch the span identifiers are pairwise distinct when
    the hops' ttl values are distinct and within 1..255: the root's is eight
    zero bytes, a hop's is its ttl followed by seven zero bytes, and every hop
    span names the root as its parent. *)
Theorem span_ids_distinct_within_batch :
  forall config now1 now2 result target,
    NoDup (map ttl (hops result)) ->
    Forall (fun h => 1 <= ttl h <= 255) (hops result) ->
    exists root children,
      allSpans (convertToTraces config now1 now2 result target)
      = root :: children /\
      NoDup (map ptrace.spSpanID (root :: children)) /\
      ptrace.spSpanID root = [0; 0; 0; 0; 0; 0; 0; 0] /\
      map ptrace.spSpanID children
      = map (fun h => [ttl h; 0; 0; 0; 0; 0; 0; 0]) (hops result) /\
      Forall (fun c => ptrace.spParentSpanID c = ptrace.spSpanID root) children.
Proof.
  intros config now1 now2 result target Hnd Hrange.
  rewrite allSpans_convertToTraces. cbv zeta.
  eexists _, _. split; [reflexivity|].
  cbn [map]. rewrite map_hopSpanID by assumption.
  change (ptrace.spSpanID (rootSpan _ _ _ _)) with (bytes8 0).
  repeat split.
  - constructor.
    + rewrite in_map_iff. intros (t & Ht & Hin).
      apply bytes8_inj in Ht. subst t.
      rewrite in_map_iff in Hin. destruct Hin as (h & Hh & Hin).
      rewrite Forall_forall in Hrange. specialize (Hrange h Hin). lia.
    + apply NoDup_map_bytes8, Hnd.
  - now rewrite map_map.
  - rewrite Forall_forall. intros c Hc.
    rewrite in_map_iff in Hc. destruct Hc as (h & <- & _). reflexivity.
Qed.

Lemma span_ids_distinct_within_batch_witness :
  exists root children,
    allSpans (convertToTraces bareConfig 1000 1001 testedResult exampleTarget)
    = root :: children /\
    NoDup (map ptrace.spSpanID (root :: children)) /\
    ptrace.spSpanID root = [0; 0; 0; 0; 0; 0; 0; 0] /\
    map ptrace.spSpanID children
    = map (fun h => [ttl h; 0; 0; 0; 0; 0; 0; 0]) (hops testedResult) /\
    Forall (fun c => ptrace.spParentSpanID c = ptrace.spSpanID root) children.
Proof.
  apply (span_ids_distinct_within_batch bareConfig 1000 1001 testedResult
           exampleTarget).
  - cbn. repeat (apply NoDup_cons; [cbn; lia|]). apply NoDup_nil.
  - repeat (apply Forall_cons; [cbn; lia|]). apply Forall_nil.
Defined.

(** [Validate] lets a configuration through only with 1..64 hops. *)
Lemma Validate_bounds_MaxHops cfg :
  Validate cfg = None -> 1 <= MaxHops cfg <= 64.
Proof.
  unfold Validate.
  repeat match goal with
         | |- context [if ?b then _ else _] => destruct b eqn:?
         | |- context [match ?x with Some _ => _ | None => _ end] => destruct x
         end; try discriminate.
  intros _.
  match goal with
  | H : (_ <=? 0) || (64 <? _) = false |- _ =>
      apply orb_false_iff in H; destruct H as [?%Z.leb_gt ?%Z.ltb_ge]
  end. lia.
Qed.

(** ** Shutdown (C9) *)

Lemma closes_app a b : closes (a ++ b) = (closes a + closes b)%nat.
Proof. unfold closes. now rewrite filter_app, length_app. Qed.

Lemma closes_afterOnce s trail err s' trail' :
  Receiver.afterOnce s trail = Receiver.Returns err s' trail' ->
  err = None /\ Receiver.Wait s = Some s' /\ closes trail' = closes trail /\
  In Receiver.WaitReturned trail'.
Proof.
  unfold Receiver.afterOnce.
  destruct (Receiver.Wait s) as [s1|]; [|discriminate].
  intros [= <- <- <-]. repeat split.
  - unfold closes. rewrite !filter_app, !length_app.
    destruct (Receiver.tracer s1); cbn; lia.
  - apply in_or_app. right. now left.
Qed.

Lemma Wait_settles s s' :
  Receiver.Wait s = Some s' ->
  Receiver.wg s' = 0%nat /\ Receiver.stopCh s' = Receiver.stopCh s /\
  Receiver.stopOnce s' = Receiver.stopOnce s /\ Receiver.Wait s' = Some s'.
Proof.
  unfold Receiver.Wait.
  destruct s as [c o [|n] tr]; cbn.
  - intros [= <-]. cbn. auto.
  - destruct c; try discriminate. intros [= <-]. cbn. auto.
Qed.

(** C9: when a call of [Shutdown] returns, it returns no error, after its
    wait for the [collect] goroutines, all of which have exited; a second call
    then returns no error either, after a wait of its own, leaves the
    receiver's state as it is, and does not close the stop channel again, so
    that over both calls the channel is closed once (not at all if the [Once]
    had fired before). *)
Theorem Shutdown_idempotent :
  forall s err1 s1 trail1,
    Receiver.Shutdown s = Receiver.Returns err1 s1 trail1 ->
    err1 = None /\
    Receiver.wg s1 = 0%nat /\
    In Receiver.WaitReturned trail1 /\
    exists trail2,
      Receiver.Shutdown s1 = Receiver.Returns None s1 trail2 /\
      In Receiver.WaitReturned trail2 /\
      closes trail2 = 0%nat /\
      closes (trail1 ++ trail2) = (if Receiver.stopOnce s then 0 else 1)%nat.
Proof.
  intros s err1 s1 trail1 H.
  assert (H1 : err1 = None /\ Receiver.wg s1 = 0%nat
               /\ Receiver.stopOnce s1 = true /\ Receiver.Wait s1 = Some s1
               /\ closes trail1 = (if Receiver.stopOnce s then 0 else 1)%nat
               /\ In Receiver.WaitReturned trail1).
  { unfold Receiver.Shutdown in H.
    destruct (Receiver.stopOnce s) eqn:Once.
    - apply closes_afterOnce in H. destruct H as (-> & W & C & I).
      apply Wait_settles in W. destruct W as (? & ? & O & ?).
      repeat split; try assumption. congruence.
    - destruct (Receiver.close (Receiver.stopCh s)); [|discriminate].
      apply closes_afterOnce in H. destruct H as (-> & W & C & I).
      apply Wait_settles in W. destruct W as (? & ? & O & ?).
      repeat split; assumption. }
  destruct H1 as (-> & Hwg & Honce & Hwait & Hc & Hw).
  split; [reflexivity|]. split; [assumption|]. split; [assumption|].
  unfold Receiver.Shutdown, Receiver.afterOnce. rewrite Honce, Hwait.
  eexists. split; [reflexivity|]. split; [cbn; now left|].
  assert (Z2 : forall tr : option string,
             closes ([] ++ [Receiver.WaitReturned]
                     ++ (match tr with
                         | Some _ => [Receiver.TracerClosed]
                         | None => []
                         end)
                     ++ [Receiver.Logged "ztrace receiver stopped"])%list
             = 0%nat) by (intros [?|]; reflexivity).
  split; [apply Z2|].
  rewrite closes_app, Hc, Z2. lia.
Qed.

Lemma Start_gives_startedState :
  Receiver.Start lifecycleConfig Receiver.created
  = Receiver.Returns None startedState [Receiver.Logged "ztrace receiver started"].
Proof. reflexivity. Qed.

Lemma Shutdown_idempotent_witness :
  @None Go.error = None /\
  Receiver.wg stoppedState = 0%nat /\
  In Receiver.WaitReturned
     [Receiver.CloseStopCh; Receiver.WaitReturned; Receiver.TracerClosed;
      Receiver.Logged "ztrace receiver stopped"] /\
  exists trail2,
    Receiver.Shutdown stoppedState = Receiver.Returns None stoppedState trail2 /\
    In Receiver.WaitReturned trail2 /\
    closes trail2 = 0%nat /\
    closes ([Receiver.CloseStopCh; Receiver.WaitReturned; Receiver.TracerClosed;
             Receiver.Logged "ztrace receiver stopped"] ++ trail2)
    = (if Receiver.stopOnce startedState then 0 else 1)%nat.
Proof.
  apply (Shutdown_idempotent startedState None stoppedState). reflexivity.
Defined.

(** ** The trace engine (C3, C4, C5, C6) *)

Lemma traceHop_spec t target config src :
  let h := fst (traceHop t target config src) in
  ttl h = t /\ wholeMs h.
Proof.
  destruct (traceHop_unfold t target config src)
    as (h0 & s0 & h1 & jit & s2 & E0 & H1 & ->).
  pose proof (hopScenario_spec t target config src) as (T0 & _ & K0).
  rewrite E0 in T0, K0. cbn [fst] in *. unfold wholeMs, when.
  destruct (PrimFloat.ltb 0 (latency h0));
    destruct H1 as [->|[v ->]]; hop_simpl; auto.
Qed.

Lemma order_table :
  forallb (fun a => forallb (orderAgrees a) msRange) msRange = true.
Proof. vm_compute. reflexivity. Qed.

Lemma in_msRange k : 0 <= k < 150 -> In k msRange.
Proof.
  intros H. unfold msRange. rewrite in_map_iff.
  exists (Z.to_nat k). split; [lia|]. rewrite in_seq. lia.
Qed.

Lemma whole_order a b :
  0 <= a < 150 -> 0 <= b < 150 ->
  PrimFloat.ltb (Go.float64_of_int a) (Go.float64_of_int b) = (a <? b) /\
  PrimFloat.leb (Go.float64_of_int a) (Go.float64_of_int b) = (a <=? b).
Proof.
  intros Ha Hb. pose proof order_table as T.
  rewrite forallb_forall in T. specialize (T a (in_msRange a Ha)).
  rewrite forallb_forall in T. specialize (T b (in_msRange b Hb)).
  unfold orderAgrees in T. apply andb_true_iff in T. destruct T as [T1 T2].
  apply Bool.eqb_prop in T1, T2. now split.
Qed.

(** The summing-up loop touches the total only. *)
Lemma sumUp_fold hs : forall r,
  fold_left (fun r hop =>
               if PrimFloat.ltb (totalLatency r) (latency hop)
               then set_totalLatency (latency hop) r else r) hs r
  = {| hops := hops r;
       totalLatency := fold_left maxStep hs (totalLatency r);
       targetReached := targetReached r |}.
Proof.
  induction hs as [|h hs IH]; intros r; cbn [fold_left].
  - now destruct r.
  - rewrite IH.
    replace (maxStep (totalLatency r) h)
      with (totalLatency
              (if PrimFloat.ltb (totalLatency r) (latency h)
               then set_totalLatency (latency h) r else r))
      by (unfold maxStep;
          destruct (PrimFloat.ltb (totalLatency r) (latency h)); reflexivity).
    destruct (PrimFloat.ltb (totalLatency r) (latency h)); reflexivity.
Qed.

Lemma sumUp_eq r :
  sumUp r = {| hops := hops r;
               totalLatency := fold_left maxStep (hops r) (totalLatency r);
               targetReached := targetReached r |}.
Proof. apply sumUp_fold. Qed.

(** Folding [maxStep] over whole-millisecond latencies, from a
    whole-millisecond start: the result bounds the start and every latency,
    and is one of them. *)
Lemma maxStep_whole hs : forall k0,
  0 <= k0 < 150 ->
  Forall wholeMs hs ->
  exists k, 0 <= k < 150 /\ k0 <= k /\
    fold_left maxStep hs (Go.float64_of_int k0) = Go.float64_of_int k /\
    (forall h, In h hs ->
       PrimFloat.leb (latency h) (Go.float64_of_int k) = true) /\
    (k = k0 \/ exists h, In h hs /\ latency h = Go.float64_of_int k).
Proof.
  induction hs as [|h hs IH]; intros k0 Hk0 Hall.
  - exists k0. cbn. intuition lia.
  - inversion Hall as [|? ? (kh & Hkh & Eh) Hall']; subst.
    cbn [fold_left].
    replace (maxStep (Go.float64_of_int k0) h)
      with (Go.float64_of_int (if k0 <? kh then kh else k0))
      by (unfold maxStep; rewrite Eh;
          destruct (whole_order k0 kh Hk0 Hkh) as [-> _];
          now destruct (k0 <? kh)).
    destruct (Z.ltb_spec k0 kh) as [Hlt|Hge].
    + destruct (IH kh Hkh Hall') as (k & Hk & Hle & E & Hub & Hatt).
      exists k. repeat split; try lia; try assumption.
      * intros h' [<-|Hin]; [|now apply Hub].
        rewrite Eh. destruct (whole_order kh k Hkh Hk) as [_ ->].
        apply Z.leb_le. lia.
      * right. destruct Hatt as [->|(h' & Hin & E')].
        -- exists h. split; [now left|assumption].
        -- exists h'. split; [now right|assumption].
    + destruct (IH k0 Hk0 Hall') as (k & Hk & Hle & E & Hub & Hatt).
      exists k. repeat split; try lia; try assumption.
      * intros h' [<-|Hin]; [|now apply Hub].
        rewrite Eh. destruct (whole_order kh k Hkh Hk) as [_ ->].
        apply Z.leb_le. lia.
      * destruct Hatt as [->|(h' & Hin & E')]; [now left|].
        right. exists h'. split; [now right|assumption].
Qed.

Lemma ttlsFrom_seq n : forall a,
  ttlsFrom (Z.of_nat a) n = map Z.of_nat (seq a n).
Proof.
  induction n as [|n IH]; intros a; [reflexivity|].
  cbn [ttlsFrom seq map]. f_equal.
  replace (Z.of_nat a + 1) with (Z.of_nat (S a)) by lia. apply IH.
Qed.

Lemma ttlsFrom_app a : forall t b,
  ttlsFrom t (a + b) = (ttlsFrom t a ++ ttlsFrom (t + Z.of_nat a) b)%list.
Proof.
  induction a as [|a IH]; intros t b.
  - cbn. now rewrite Z.add_0_r.
  - cbn [Nat.add ttlsFrom app]. rewrite IH. do 3 f_equal. lia.
Qed.

Lemma ttlsFrom_bounds n : forall t x,
  In x (ttlsFrom t n) -> t <= x < t + Z.of_nat n.
Proof.
  induction n as [|n IH]; intros t x; cbn [ttlsFrom]; [intros []|].
  intros [<-|Hin]; [lia|]. apply IH in Hin. lia.
Qed.

Lemma ttlsFrom_length t n : List.length (ttlsFrom t n) = n.
Proof. revert t. induction n; intros; cbn; auto. Qed.

(** The invariant of the probing loop, read off a run that left the loop. *)
Lemma probeLoop_done n : forall t ctx addr config r0 src r src',
  probeLoop n t ctx addr config r0 src = (LoopDone r, src') ->
  exists new,
    hops r = (hops r0 ++ new)%list /\
    totalLatency r = totalLatency r0 /\
    map ttl new = ttlsFrom t (List.length new) /\
    (List.length new <= n)%nat /\
    Forall wholeMs new /\
    ((targetReached r = true /\ reachedBy addr new)
     \/ (targetReached r = targetReached r0 /\ List.length new = n
         /\ Forall (fun h' => ip h' <> addr) new)).
Proof.
  induction n as [|n IH]; intros t ctx addr config r0 src r src'.
  - cbn. unfold Rand.ret. intros [= <- <-].
    exists []. rewrite app_nil_r. repeat split; auto.
  - cbn [probeLoop].
    destruct (ctxErr ctx t); [unfold Rand.ret; discriminate|].
    unfold Rand.bind.
    pose proof (traceHop_spec t addr config src) as [Httl Hms].
    destruct (traceHop t addr config src) as [hop s1]. cbn [fst] in Httl, Hms.
    destruct (String.eqb (ip hop) addr) eqn:Eip.
    + apply String.eqb_eq in Eip.
      unfold Rand.ret. intros [= <- <-].
      exists [hop]. cbn. rewrite Httl. repeat split; auto; try lia.
      left. split; [reflexivity|]. exists [], hop. auto.
    + apply String.eqb_neq in Eip.
      intros H. apply IH in H.
      destruct H as (new & Eh & Et & Ettl & Hlen & Hall & Hend).
      exists (hop :: new). cbn [hops appendHop] in Eh.
      rewrite <- app_assoc in Eh. cbn [app] in Eh.
      cbn [map List.length ttlsFrom]. rewrite Httl, Ettl.
      repeat split; auto; try lia.
      destruct Hend as [(Hr & pre & h & -> & Hip & Hpre)|(Hr & Hn & Hne)].
      * left. split; [assumption|]. exists (hop :: pre), h. auto.
      * right. cbn in Hr. repeat split; auto.
Qed.



(** A run that hands back a result resolved its target, left the loop by
    its end or by [break], and summed up. *)
Lemma trace_result resolve ctx target config src r e src' :
  trace resolve ctx target config src = ((Some r, e), src') ->
  e = None /\
  exists addr r1,
    resolve (Endpoint target) = inl addr /\
    probeLoop (Z.to_nat (MaxHops config)) 1 ctx addr config freshResult src
    = (LoopDone r1, src') /\
    r = sumUp r1.
Proof.
  unfold trace. destruct (resolve (Endpoint target)) as [addr|err] eqn:R.
  - unfold Rand.bind. fold freshResult.
    destruct (probeLoop _ 1 ctx addr config freshResult src)
      as [[r1|e1] s1] eqn:L;
      unfold Rand.ret; intros [= <- <- <-].
    split; [reflexivity|]. now exists addr, r1.
  - unfold Rand.ret. discriminate.
Qed.

Lemma whole_zero : Go.float64_of_int 0 = 0%float.
Proof. reflexivity. Qed.

(** C3: in every result [trace] returns, the total latency is the maximum of
    the hop latencies: no hop exceeds it and, when there is a hop, it is the
    latency of one of them (so it is not their sum); it is 0 when there is no
    hop or every hop latency is 0. *)
Theorem totalLatency_is_max :
  forall resolve ctx target config src r src',
    trace resolve ctx target config src = ((Some r, None), src') ->
    (forall h, In h (hops r) ->
       PrimFloat.leb (latency h) (totalLatency r) = true) /\
    (hops r <> [] -> exists h, In h (hops r) /\ totalLatency r = latency h) /\
    (hops r = [] -> totalLatency r = 0%float) /\
    ((forall h, In h (hops r) -> latency h = 0%float) ->
     totalLatency r = 0%float).
Proof.
  intros resolve ctx target config src r src' H.
  apply trace_result in H. destruct H as (_ & addr & r1 & _ & Hloop & ->).
  apply probeLoop_done in Hloop.
  destruct Hloop as (new & Eh & Et & _ & _ & Hall & _).
  cbn [hops freshResult app] in Eh. cbn [totalLatency freshResult] in Et.
  rewrite sumUp_eq. cbn [hops totalLatency]. rewrite Eh, Et, <- whole_zero.
  destruct (maxStep_whole new 0 ltac:(lia) Hall)
    as (k & Hk & _ & -> & Hub & Hatt).
  assert (Hmax : new <> [] ->
                 exists h, In h new /\ Go.float64_of_int k = latency h).
  { intros Hne. destruct Hatt as [->|(h & Hin & E)]; [|now exists h].
    destruct new as [|h tl]; [contradiction|]. exists h. split; [now left|].
    inversion Hall as [|? ? (kh & Hkh & Eh') _]; subst.
    specialize (Hub h (or_introl eq_refl)). rewrite Eh' in Hub.
    destruct (whole_order kh 0 Hkh ltac:(lia)) as [_ E]. rewrite E in Hub.
    apply Z.leb_le in Hub. rewrite Eh'. f_equal. lia. }
  repeat split.
  - exact Hub.
  - exact Hmax.
  - intros ->. destruct Hatt as [->|(h & [] & _)]. reflexivity.
  - intros Hzero. destruct new as [|h tl].
    + destruct Hatt as [->|(h & [] & _)]. reflexivity.
    + destruct Hmax as (h' & Hin & ->); [discriminate|]. now apply Hzero.
Qed.

(** C5: with a hop budget of at least 1, a result [trace] returns has
    between 1 and [MaxHops] hops and their ttl values are 1, 2, ..., n in
    this order: the hop at index [i] has ttl [i + 1] whether or not it
    answered (an empty address is recorded like any other). *)
Theorem hops_are_contiguous :
  forall resolve ctx target config src r src',
    1 <= MaxHops config ->
    trace resolve ctx target config src = ((Some r, None), src') ->
    (1 <= List.length (hops r))%nat /\
    Z.of_nat (List.length (hops r)) <= MaxHops config /\
    map ttl (hops r) = map Z.of_nat (seq 1 (List.length (hops r))) /\
    (forall i h, nth_error (hops r) i = Some h -> ttl h = Z.of_nat i + 1).
Proof.
  intros resolve ctx target config src r src' Hmax H.
  apply trace_result in H. destruct H as (_ & addr & r1 & _ & Hloop & ->).
  apply probeLoop_done in Hloop.
  destruct Hloop as (new & Eh & _ & Ettl & Hlen & _ & Hend).
  cbn [hops freshResult app] in Eh.
  rewrite sumUp_eq. cbn [hops]. rewrite Eh.
  change 1 with (Z.of_nat 1) in Ettl. rewrite ttlsFrom_seq in Ettl.
  assert (Hpos : (1 <= List.length new)%nat).
  { destruct Hend as [(_ & pre & h & -> & _)|(_ & -> & _)]; [|lia].
    rewrite length_app. cbn. lia. }
  repeat split; try assumption; try lia.
  intros i h Hnth.
  assert (Hi : (i < List.length new)%nat)
    by (apply nth_error_Some; congruence).
  apply (map_nth_error ttl) in Hnth. rewrite Ettl in Hnth.
  apply (nth_error_nth _ _ 0) in Hnth.
  change 0 with (Z.of_nat 0) in Hnth. rewrite map_nth, seq_nth in Hnth by lia.
  lia.
Qed.


(** [traceHop] reads the two enrichment flags of the configuration only. *)
Lemma traceHop_flags t addr c c' :
  EnableGeolocation c = EnableGeolocation c' ->
  EnableASNLookup c = EnableASNLookup c' ->
  traceHop t addr c = traceHop t addr c'.
Proof.
  intros G A. unfold traceHop, hopScenario. now rewrite G, A.
Qed.

(** Once the target is reached the loop has made exactly as many probes as
    it recorded hops: a budget of that many iterations gives the same run,
    random source included. *)
Lemma probeLoop_reached n : forall t ctx addr config config' r0 src r src',
  EnableGeolocation config = EnableGeolocation config' ->
  EnableASNLookup config = EnableASNLookup config' ->
  probeLoop n t ctx addr config r0 src = (LoopDone r, src') ->
  targetReached r0 = false -> targetReached r = true ->
  probeLoop (List.length (hops r) - List.length (hops r0)) t ctx addr config'
            r0 src
  = (LoopDone r, src').
Proof.
  induction n as [|n IH]; intros t ctx addr config config' r0 src r src' G A.
  - cbn. unfold Rand.ret. intros [= <- <-]. congruence.
  - cbn [probeLoop].
    destruct (ctxErr ctx t) eqn:C; [unfold Rand.ret; discriminate|].
    unfold Rand.bind.
    destruct (traceHop t addr config src) as [hop s1] eqn:E.
    destruct (String.eqb (ip hop) addr) eqn:Eip.
    + unfold Rand.ret. intros [= <- <-] _ _.
      cbn [hops set_targetReached appendHop]. rewrite length_app.
      replace (List.length (hops r0) + List.length [hop]
               - List.length (hops r0))%nat with 1%nat by (cbn; lia).
      cbn [probeLoop]. rewrite C. unfold Rand.bind, Rand.ret.
      rewrite <- (traceHop_flags t addr config config' G A), E, Eip.
      reflexivity.
    + intros Hrun H0 H1.
      pose proof (probeLoop_done _ _ _ _ _ _ _ _ _ Hrun) as (new & Eh & _).
      specialize (IH _ _ _ _ config' _ _ _ _ G A Hrun H0 H1).
      cbn [hops appendHop] in Eh, IH. rewrite length_app in IH.
      rewrite Eh, !length_app in *. cbn [List.length] in *.
      replace (List.length (hops r0) + 1 + List.length new
               - List.length (hops r0))%nat
        with (S (List.length new)) by lia.
      replace (List.length (hops r0) + 1 + List.length new
               - (List.length (hops r0) + 1))%nat
        with (List.length new) in IH by lia.
      cbn [probeLoop]. rewrite C. unfold Rand.bind.
      rewrite <- (traceHop_flags t addr config config' G A), E, Eip.
      exact IH.
Qed.

(** C4: when a hop of the returned result has the target's resolved
    address, the result says the target was reached, that hop is the last of
    the sequence, every other hop has another address and a smaller ttl, and
    nothing was probed beyond it: a hop budget of that ttl gives the very same
    run, down to the state of the random source. *)
Theorem target_hop_ends_the_trace :
  forall resolve ctx target config src addr r src' h,
    resolve (Endpoint target) = inl addr ->
    trace resolve ctx target config src = ((Some r, None), src') ->
    In h (hops r) -> ip h = addr ->
    targetReached r = true /\
    (exists pre,
        hops r = (pre ++ [h])%list /\
        Forall (fun h' => ip h' <> addr /\ ttl h' < ttl h) pre) /\
    (forall h', In h' (hops r) -> ttl h' <= ttl h) /\
    trace resolve ctx target (withMaxHops (ttl h) config) src
    = ((Some r, None), src').
Proof.
  intros resolve ctx target config src addr r src' h R H Hin Hip.
  apply trace_result in H. destruct H as (_ & addr' & r1 & R' & Hloop & ->).
  assert (addr' = addr) by congruence. subst addr'. clear R'.
  pose proof (probeLoop_done _ _ _ _ _ _ _ _ _ Hloop)
    as (new & Eh & _ & Ettl & _ & _ & Hend).
  cbn [hops freshResult app] in Eh.
  rewrite sumUp_eq in *. cbn [hops targetReached] in *. rewrite Eh in *.
  destruct Hend as [(Hr & pre & h0 & -> & Hip0 & Hpre)|(_ & _ & Hne)].
  2:{ rewrite Forall_forall in Hne. now apply Hne in Hin. }
  assert (h = h0).
  { apply in_app_or in Hin. destruct Hin as [Hin|[<-|[]]]; [|reflexivity].
    rewrite Forall_forall in Hpre. now apply Hpre in Hin. }
  subst h0.
  rewrite map_app, length_app, ttlsFrom_app in Ettl.
  cbn [List.length map ttlsFrom] in Ettl.
  apply app_inj_tail in Ettl. destruct Ettl as [Epre Eh0].
  assert (Hsmall : Forall (fun h' => ip h' <> addr /\ ttl h' < ttl h) pre).
  { rewrite Forall_forall in *. intros h' Hin'. split; [now apply Hpre|].
    assert (Hb : In (ttl h') (ttlsFrom 1 (List.length pre)))
      by (rewrite <- Epre; now apply in_map).
    apply ttlsFrom_bounds in Hb. lia. }
  repeat split.
  - exact Hr.
  - now exists pre.
  - intros h' Hin'. apply in_app_or in Hin'.
    destruct Hin' as [Hin'|[<-|[]]]; [|lia].
    rewrite Forall_forall in Hsmall. apply Hsmall in Hin'. lia.
  - unfold trace. rewrite R. unfold Rand.bind. fold freshResult.
    cbn [MaxHops withMaxHops].
    pose proof (probeLoop_reached _ _ _ _ config (withMaxHops (ttl h) config)
                  _ _ _ _ eq_refl eq_refl Hloop eq_refl Hr) as B.
    rewrite Eh, length_app in B. cbn [List.length hops freshResult] in B.
    replace (Z.to_nat (ttl h)) with (List.length pre + 1 - 0)%nat by lia.
    rewrite B. unfold Rand.ret. rewrite sumUp_eq. cbn [hops targetReached].
    now rewrite Eh.
Qed.

Lemma sampleRun_eq : sampleRun = ((Some sampleResult, None), snd sampleRun).
Proof. vm_compute. reflexivity. Qed.

(** The run reaches the target at ttl 15 after two timed-out hops, which are
    part of the sequence. *)
Lemma sampleResult_shape :
  map ttl (hops sampleResult) = [1; 2; 3; 4; 5; 6; 7; 8; 9; 10; 11; 12; 13; 14; 15]
  /\ map ip (skipn 12 (hops sampleResult))
     = [EmptyString; EmptyString; "93.184.216.34"]
  /\ targetReached sampleResult = true.
Proof. repeat split. Qed.

Lemma totalLatency_is_max_witness :
  (forall h, In h (hops sampleResult) ->
     PrimFloat.leb (latency h) (totalLatency sampleResult) = true) /\
  (hops sampleResult <> [] ->
   exists h, In h (hops sampleResult) /\ totalLatency sampleResult = latency h) /\
  (hops sampleResult = [] -> totalLatency sampleResult = 0%float) /\
  ((forall h, In h (hops sampleResult) -> latency h = 0%float) ->
   totalLatency sampleResult = 0%float).
Proof.
  apply (totalLatency_is_max sampleResolver neverDone exampleTarget
           lifecycleConfig sampleSource sampleResult (snd sampleRun)).
  exact sampleRun_eq.
Defined.

Lemma hops_are_contiguous_witness :
  (1 <= List.length (hops sampleResult))%nat /\
  Z.of_nat (List.length (hops sampleResult)) <= MaxHops lifecycleConfig /\
  map ttl (hops sampleResult)
  = map Z.of_nat (seq 1 (List.length (hops sampleResult))) /\
  (forall i h, nth_error (hops sampleResult) i = Some h ->
               ttl h = Z.of_nat i + 1).
Proof.
  apply (hops_are_contiguous sampleResolver neverDone exampleTarget
           lifecycleConfig sampleSource sampleResult (snd sampleRun)).
  - cbn. lia.
  - exact sampleRun_eq.
Defined.

Lemma target_hop_ends_the_trace_witness :
  targetReached sampleResult = true /\
  (exists pre,
      hops sampleResult = (pre ++ [sampleTargetHop])%list /\
      Forall (fun h' => ip h' <> "93.184.216.34"
                        /\ ttl h' < ttl sampleTargetHop) pre) /\
  (forall h', In h' (hops sampleResult) -> ttl h' <= ttl sampleTargetHop) /\
  trace sampleResolver neverDone exampleTarget
        (withMaxHops (ttl sampleTargetHop) lifecycleConfig) sampleSource
  = ((Some sampleResult, None), snd sampleRun).
Proof.
  apply (target_hop_ends_the_trace sampleResolver neverDone exampleTarget
           lifecycleConfig sampleSource "93.184.216.34" sampleResult
           (snd sampleRun) sampleTargetHop).
  - reflexivity.
  - exact sampleRun_eq.
  - vm_compute. do 14 right. left. reflexivity.
  - reflexivity.
Defined.

Lemma expired_run_has_no_result :
  fst (trace sampleResolver expiresAtThree exampleTarget lifecycleConfig
             sampleSource)
  = (None, Some Go.DeadlineExceeded).
Proof. vm_compute. reflexivity. Qed.

(** ** Enrichment switched off (C8) *)

Lemma carriesGeoAsnb_false m : carriesGeoAsnb m = false -> ~ carriesGeoAsn m.
Proof.
  unfold carriesGeoAsnb, carriesGeoAsn. intros Hb (k & Hk & Hin).
  apply Bool.not_true_iff_false in Hb. apply Hb.
  apply existsb_exists. exists k. split; [assumption|].
  apply existsb_exists. exists k. split; [assumption|apply String.eqb_refl].
Qed.

Section EnrichmentOff.

Variable config : Config.
Hypothesis geoOff : EnableGeolocation config = false.
Hypothesis asnOff : EnableASNLookup config = false.

Lemma hopMetrics_scrub ts h :
  hopMetrics config ts (scrub h) = hopMetrics config ts h.
Proof.
  destruct h. unfold hopMetrics, latencyMetric. rewrite geoOff, asnOff.
  reflexivity.
Qed.

Lemma hopSpan_scrub st h : hopSpan config st (scrub h) = hopSpan config st h.
Proof.
  destruct h. unfold hopSpan. rewrite geoOff, asnOff. reflexivity.
Qed.

Lemma flat_map_hopMetrics_scrub ts hs :
  flat_map (hopMetrics config ts) (map scrub hs)
  = flat_map (hopMetrics config ts) hs.
Proof.
  induction hs as [|h hs IH]; [reflexivity|].
  cbn [map flat_map]. now rewrite hopMetrics_scrub, IH.
Qed.

Lemma convertToMetrics_scrub now r target :
  convertToMetrics config now (scrubResult r) target
  = convertToMetrics config now r target.
Proof.
  unfold convertToMetrics, hopCountMetric, totalLatencyMetric.
  cbn [hops totalLatency scrubResult].
  now rewrite length_map, flat_map_hopMetrics_scrub.
Qed.

Lemma convertToTraces_scrub now1 now2 r target :
  convertToTraces config now1 now2 (scrubResult r) target
  = convertToTraces config now1 now2 r target.
Proof.
  unfold convertToTraces, rootSpan. cbn [hops totalLatency scrubResult].
  rewrite length_map, map_map.
  now rewrite (map_ext _ _ (hopSpan_scrub _)).
Qed.

Lemma hopMetrics_clean ts h :
  forallb (fun m => forallb (fun dp => negb (carriesGeoAsnb (pmetric.dpAttributes dp)))
                            (pmetric.Gauge m))
          (hopMetrics config ts h) = true.
Proof.
  unfold hopMetrics, latencyMetric. rewrite geoOff, asnOff.
  destruct (nonEmpty (hostname h)), (PrimFloat.ltb 0 (packetLoss h)),
    (PrimFloat.ltb 0 (jitter h)); reflexivity.
Qed.

Lemma hopSpan_clean st h :
  negb (carriesGeoAsnb (ptrace.spAttributes (hopSpan config st h)))
  && forallb (fun ev => negb (carriesGeoAsnb (ptrace.evAttributes ev)))
             (ptrace.spEvents (hopSpan config st h)) = true.
Proof.
  unfold hopSpan. rewrite geoOff, asnOff. cbn [ptrace.spAttributes ptrace.spEvents].
  destruct (nonEmpty (hostname h)), (PrimFloat.ltb 0 (packetLoss h)),
    (PrimFloat.ltb 0 (jitter h)), (PrimFloat.ltb 50 (packetLoss h));
    reflexivity.
Qed.

End EnrichmentOff.

Lemma no_attributes_clean : ~ carriesGeoAsn [].
Proof. intros (k & _ & []). Qed.

(** Keys of a map after a block of [Put]s. *)
Lemma keys_Put k v m x : In x (keys (Put k v m)) -> x = k \/ In x (keys m).
Proof.
  unfold keys. induction m as [|[k' v'] m IH]; cbn [Put map fst In].
  - intros [<-|[]]. now left.
  - destruct (String.eqb k' k) eqn:E; cbn [map fst In].
    + apply String.eqb_eq in E. subst k'. intros [<-|H]; auto.
    + intros [<-|H]; auto. apply IH in H. destruct H; auto.
Qed.

Lemma keys_putTags tags : forall m x,
  In x (keys (run (putTags tags) m)) ->
  In x (keys m) \/ In x (map fst tags).
Proof.
  unfold run. induction tags as [|[k v] tags IH]; intros m x; cbn; auto.
  intros H. apply IH in H. destruct H as [H|H]; auto.
  apply keys_Put in H. cbn in H. destruct H as [->|H]; auto.
Qed.

(** The resource attributes have the fixed keys and the user's tag keys. *)
Lemma resource_keys config target x :
  In x (keys (metricsResource config target))
  \/ In x (keys (tracesResource config target)) ->
  In x ["ztrace.target"; "ztrace.protocol"; "service.name"; "ztrace.port"]
  \/ In x (map fst (Tags target)).
Proof.
  unfold metricsResource, tracesResource, run.
  rewrite !fold_left_app. fold (run (putTags (Tags target))).
  intros [H|H]; apply keys_putTags in H; destruct H as [H|H]; auto; left;
    revert H; unfold guarded; destruct (0 <? Port target);
    cbn; intuition auto.
Qed.

(** C8: with both enrichment flags off, the two projections do not depend
    on the hops' city, country, asn and provider fields (results that agree
    once these are blanked have the same projections), and no data point,
    span or span event carries an attribute under a geolocation or ASN key. *)
Theorem enrichment_off_hides_geo_asn :
  forall config now now1 now2 target result,
    EnableGeolocation config = false ->
    EnableASNLookup config = false ->
    (forall result',
        scrubResult result' = scrubResult result ->
        convertToMetrics config now result' target
        = convertToMetrics config now result target /\
        convertToTraces config now1 now2 result' target
        = convertToTraces config now1 now2 result target) /\
    (forall m dp,
        In m (allMetrics (convertToMetrics config now result target)) ->
        In dp (pmetric.Gauge m) ->
        ~ carriesGeoAsn (pmetric.dpAttributes dp)) /\
    (forall s,
        In s (allSpans (convertToTraces config now1 now2 result target)) ->
        ~ carriesGeoAsn (ptrace.spAttributes s) /\
        forall ev, In ev (ptrace.spEvents s) ->
                   ~ carriesGeoAsn (ptrace.evAttributes ev)) /\
    ((forall k, In k geoAsnKeys -> ~ In k (map fst (Tags target))) ->
     (forall rm, In rm (convertToMetrics config now result target) ->
                 ~ carriesGeoAsn (pmetric.resource rm)) /\
     (forall rs, In rs (convertToTraces config now1 now2 result target) ->
                 ~ carriesGeoAsn (ptrace.resource rs))).
Proof.
  intros config now now1 now2 target result G A.
  split; [|split; [|split]]; [repeat split| |repeat split|].
  - rewrite <- (convertToMetrics_scrub config G A now result'),
            <- (convertToMetrics_scrub config G A now result).
    now f_equal.
  - rewrite <- (convertToTraces_scrub config G A now1 now2 result'),
            <- (convertToTraces_scrub config G A now1 now2 result).
    now f_equal.
  - intros m dp Hm Hdp. rewrite allMetrics_convertToMetrics in Hm.
    apply in_app_or in Hm. destruct Hm as [Hm|Hm].
    + apply in_flat_map in Hm. destruct Hm as (h & _ & Hm).
      pose proof (hopMetrics_clean config G A (NewTimestampFromTime now) h) as C.
      rewrite forallb_forall in C. specialize (C m Hm).
      rewrite forallb_forall in C. specialize (C dp Hdp).
      apply carriesGeoAsnb_false. now apply negb_true_iff.
    + assert (E : pmetric.dpAttributes dp = []).
      { destruct (PrimFloat.ltb 0 (totalLatency result));
          cbn in Hm; intuition (subst m; cbn in Hdp; intuition (now subst dp)). }
      rewrite E. apply no_attributes_clean.
  - rewrite allSpans_convertToTraces in H. destruct H as [<-|Hs].
    + apply carriesGeoAsnb_false. reflexivity.
    + apply in_map_iff in Hs. destruct Hs as (h & <- & _).
      pose proof (hopSpan_clean config G A
                    (NewTimestampFromTime
                       (Time.Add now1 (Time.negMillis (totalLatency result))))
                    h) as C.
      apply andb_true_iff in C. destruct C as [C _].
      apply carriesGeoAsnb_false. now apply negb_true_iff.
  - intros ev Hev.
    rewrite allSpans_convertToTraces in H. destruct H as [<-|Hs].
    + destruct Hev.
    + apply in_map_iff in Hs. destruct Hs as (h & <- & _).
      pose proof (hopSpan_clean config G A
                    (NewTimestampFromTime
                       (Time.Add now1 (Time.negMillis (totalLatency result))))
                    h) as C.
      apply andb_true_iff in C. destruct C as [_ C].
      rewrite forallb_forall in C. specialize (C ev Hev).
      apply carriesGeoAsnb_false. now apply negb_true_iff.
  - intros Htags.
    assert (R : forall x, In x geoAsnKeys ->
                  In x (keys (metricsResource config target))
                  \/ In x (keys (tracesResource config target)) -> False).
    { intros x Hx Hin. apply resource_keys in Hin. destruct Hin as [Hin|Hin].
      - revert Hx Hin. cbn. intuition (subst; discriminate).
      - exact (Htags x Hx Hin). }
    split.
    + intros rm [<-|[]] (k & Hk & Hin). exact (R k Hk (or_introl Hin)).
    + intros rs [<-|[]] (k & Hk & Hin). exact (R k Hk (or_intror Hin)).
Qed.

Lemma enrichment_off_hides_geo_asn_witness :
  (forall result',
      scrubResult result' = scrubResult enrichedResult ->
      convertToMetrics bareConfig 1000 result' exampleTarget
      = convertToMetrics bareConfig 1000 enrichedResult exampleTarget /\
      convertToTraces bareConfig 1000 1001 result' exampleTarget
      = convertToTraces bareConfig 1000 1001 enrichedResult exampleTarget) /\
  (forall m dp,
      In m (allMetrics
              (convertToMetrics bareConfig 1000 enrichedResult exampleTarget)) ->
      In dp (pmetric.Gauge m) ->
      ~ carriesGeoAsn (pmetric.dpAttributes dp)) /\
  (forall s,
      In s (allSpans
              (convertToTraces bareConfig 1000 1001 enrichedResult exampleTarget)) ->
      ~ carriesGeoAsn (ptrace.spAttributes s) /\
      forall ev, In ev (ptrace.spEvents s) ->
                 ~ carriesGeoAsn (ptrace.evAttributes ev)) /\
  ((forall k, In k geoAsnKeys -> ~ In k (map fst (Tags exampleTarget))) ->
   (forall rm,
       In rm (convertToMetrics bareConfig 1000 enrichedResult exampleTarget) ->
       ~ carriesGeoAsn (pmetric.resource rm)) /\
   (forall rs,
       In rs (convertToTraces bareConfig 1000 1001 enrichedResult exampleTarget) ->
       ~ carriesGeoAsn (ptrace.resource rs))).
Proof.
  apply (enrichment_off_hides_geo_asn bareConfig 1000 1000 1001 exampleTarget
           enrichedResult); reflexivity.
Defined.

(** With the flags on, the same result does publish them: the property
    above is the flags' doing. *)
Lemma enrichment_on_publishes_geo_asn :
  exists m dp,
    In m (allMetrics
            (convertToMetrics
               {| Targets := []; CollectionInterval := 0; Timeout := 0;
                  Protocol := "udp"; MaxHops := 30; PacketSize := 56;
                  Retries := 3; EnableGeolocation := true;
                  EnableASNLookup := true |}
               1000 enrichedResult exampleTarget)) /\
    In dp (pmetric.Gauge m) /\
    keys (pmetric.dpAttributes dp)
    = ["ttl"; "ip"; "hostname"; "city"; "country"; "asn"; "provider"].
Proof.
  rewrite allMetrics_convertToMetrics.
  eexists _, _. split; [left; reflexivity|]. split; [left; reflexivity|].
  reflexivity.
Qed.

(** ** Span timing (C7) *)

(** Every hop span starts with the root span and names it as its parent;
    the hop spans come in the order of the hops. *)
Lemma hop_spans_follow_the_root config now1 now2 result target :
  exists root children,
    allSpans (convertToTraces config now1 now2 result target)
    = root :: children /\
    map ptrace.spStart children
    = map (fun _ => ptrace.spStart root) (hops result) /\
    map ptrace.spParentSpanID children
    = map (fun _ => ptrace.spSpanID root) (hops result) /\
    map ptrace.spName children
    = map (fun h => "hop " ++ Go.itoa (ttl h) ++ ": " ++ ip h) (hops result).
Proof.
  rewrite allSpans_convertToTraces. cbv zeta.
  eexists _, _. split; [reflexivity|].
  rewrite !map_map. repeat split.
Qed.

(** C7: the code does not have the property.  On the result of the
    repository's own projection test (latencies 2.5 ms and 10.2 ms, total
    12.7 ms) the spans last 12, 2 and 10 ms when both clock readings
    coincide: the fractions are cut off.  When the second reading of the clock
    is 250 ns after the first, the root span lasts 250 ns longer still. *)
Theorem span_durations_lose_fractions :
  map durationMs
      (allSpans (convertToTraces bareConfig 1700000000000000000
                   1700000000000000000 testedResult exampleTarget))
  = [12%float; 2%float; 10%float]
  /\ totalLatency testedResult :: map latency (hops testedResult)
     = [0x1.9666666666666p+3%float; 2.5%float; 0x1.4666666666666p+3%float]
  /\ map duration
         (allSpans (convertToTraces bareConfig 1700000000000000000
                      1700000000000000250 testedResult exampleTarget))
     = [12000250; 2000000; 10000000].
Proof. repeat split. Qed.

(** On whole-millisecond latencies, which is all [traceHop] produces, the
    conversion loses nothing. *)
Lemma whole_int64_table :
  forallb (fun k => Go.int64_of_float64 (Go.float64_of_int k) =? k) msRange
  = true.
Proof. vm_compute. reflexivity. Qed.

Lemma int64_of_whole k :
  0 <= k < 150 -> Go.int64_of_float64 (Go.float64_of_int k) = k.
Proof.
  intros Hk. pose proof whole_int64_table as T.
  rewrite forallb_forall in T. apply Z.eqb_eq, T, in_msRange, Hk.
Qed.

Lemma to_int64_small z : - 2 ^ 63 <= z < 2 ^ 63 -> Go.to_int64 z = z.
Proof. intros H. unfold Go.to_int64. rewrite Z.mod_small; lia. Qed.

Lemma to_uint64_small z : 0 <= z < 2 ^ 64 -> Go.to_uint64 z = z.
Proof. intros H. unfold Go.to_uint64. apply Z.mod_small. lia. Qed.

Lemma whole_hop_span_duration config startTime h k :
  0 <= k < 150 -> latency h = Go.float64_of_int k ->
  0 <= startTime < 2 ^ 63 - 150000000 ->
  duration (hopSpan config startTime h) = k * 1000000.
Proof.
  intros Hk E Hs. unfold duration.
  cbn [ptrace.spEnd ptrace.spStart hopSpan].
  unfold hopEndTime, NewTimestampFromTime, AsTime, Time.UnixNano, Time.Unix0,
    Time.Add, Time.millis, Time.Millisecond.
  rewrite E, int64_of_whole by assumption.
  rewrite (to_int64_small startTime) by lia.
  rewrite (to_int64_small (k * 1000000)) by lia.
  rewrite to_int64_small by lia.
  rewrite to_uint64_small by lia. lia.
Qed.

Lemma whole_root_span_duration config now1 now2 result target k root rest :
  0 <= k < 150 -> totalLatency result = Go.float64_of_int k ->
  150000000 <= now1 < 2 ^ 63 -> 0 <= now2 < 2 ^ 63 ->
  allSpans (convertToTraces config now1 now2 result target) = root :: rest ->
  duration root = k * 1000000 + (now2 - now1).
Proof.
  intros Hk E H1 H2. rewrite allSpans_convertToTraces. cbv zeta.
  intros [= <- _]. unfold duration.
  cbn [ptrace.spEnd ptrace.spStart rootSpan].
  unfold NewTimestampFromTime, Time.UnixNano, Time.Add, Time.negMillis,
    Time.Millisecond.
  rewrite E, int64_of_whole by assumption.
  rewrite (to_int64_small (- k)) by lia.
  rewrite (to_int64_small (- k * 1000000)) by lia.
  rewrite (to_int64_small now2) by lia.
  rewrite to_int64_small by lia.
  rewrite !to_uint64_small by lia. lia.
Qed.

(** ** Remarks on the hypotheses above *)

(** Resource attributes copy the user's tags verbatim, whatever their keys:
    a tag named like an enrichment attribute shows up with the flags off. *)
Lemma user_tag_may_use_a_geo_key :
  keys (metricsResource bareConfig cityTagged)
  = ["ztrace.target"; "ztrace.protocol"; "ztrace.port"; "city"].
Proof. reflexivity. Qed.

Lemma NoDup_ttlsFrom n : forall t, NoDup (ttlsFrom t n).
Proof.
  induction n as [|n IH]; intros t; cbn [ttlsFrom]; constructor; [|apply IH].
  intros Hin. apply ttlsFrom_bounds in Hin. lia.
Qed.

(** A validated configuration keeps the ttl values of a traced result
    distinct and within 1..64, which is what the span identifiers need. *)
Lemma validated_trace_ttls resolve ctx target config src r e src' :
  Validate config = None ->
  trace resolve ctx target config src = ((Some r, e), src') ->
  NoDup (map ttl (hops r)) /\ Forall (fun h => 1 <= ttl h <= 64) (hops r).
Proof.
  intros V H. apply Validate_bounds_MaxHops in V.
  apply trace_result in H. destruct H as (_ & addr & r1 & _ & Hloop & ->).
  apply probeLoop_done in Hloop.
  destruct Hloop as (new & Eh & _ & Ettl & Hlen & _).
  cbn [hops freshResult app] in Eh. rewrite sumUp_eq. cbn [hops].
  rewrite Eh. split.
  - rewrite Ettl. apply NoDup_ttlsFrom.
  - rewrite Forall_forall. intros h Hin.
    apply (in_map ttl) in Hin. rewrite Ettl in Hin.
    apply ttlsFrom_bounds in Hin. lia.
Qed.

(** * Properties of the rest of the package *)

(** ** Validate and the default configuration *)

Lemma validateTargets_None protocol ts : forall i,
  validateTargets protocol i ts = None <-> Forall (targetOk protocol) ts.
Proof.
  induction ts as [|t ts IH]; intros i; cbn [validateTargets].
  - split; auto.
  - unfold targetOk at 1.
    destruct (String.eqb_spec (Endpoint t) EmptyString) as [E|E].
    { split; [discriminate|]. intros H. inversion H as [|? ? [H1 _] _]; subst.
      contradiction. }
    destruct (String.eqb_spec protocol "icmp") as [P|P]; cbn [negb andb].
    { rewrite IH. split; intros H.
      - constructor; [split; auto|assumption].
      - now inversion H. }
    destruct (Z.leb_spec (Port t) 0) as [L|L].
    { split; [discriminate|]. intros H.
      inversion H as [|? ? [_ [H2|H2]] _]; subst; [contradiction|lia]. }
    rewrite IH. split; intros H.
    + constructor; [split; auto|assumption].
    + now inversion H.
Qed.

Lemma validateTargets_skips_good protocol pre : forall i rest,
  Forall (targetOk protocol) pre ->
  validateTargets protocol i (pre ++ rest)
  = validateTargets protocol (i + Z.of_nat (List.length pre)) rest.
Proof.
  induction pre as [|t pre IH]; intros i rest H.
  - cbn. now rewrite Z.add_0_r.
  - inversion H as [|? ? [E P] H']; subst.
    cbn [app validateTargets List.length].
    destruct (String.eqb_spec (Endpoint t) EmptyString); [contradiction|].
    replace (negb (String.eqb protocol "icmp") && (Port t <=? 0)) with false.
    + rewrite IH by assumption. f_equal. lia.
    + symmetry. destruct P as [->|P]; [reflexivity|].
      apply andb_false_iff. right. apply Z.leb_gt. exact P.
Qed.

Lemma some_targets (t : TargetConfig) ts :
  (Z.of_nat (List.length (t :: ts)) =? 0) = false.
Proof. apply Z.eqb_neq. cbn [List.length]. lia. Qed.

(** X1: [Validate] accepts a configuration exactly when it has a target,
    every target has an endpoint and, unless the protocol is icmp, a positive
    port, interval and timeout are positive, the protocol is udp, icmp or
    tcp, and hops, packet size and retries are within 1..64, 1..65535 and
    0.. respectively. *)
Theorem Validate_accepts_iff :
  forall cfg,
    Validate cfg = None <->
    (Targets cfg <> [] /\
     Forall (targetOk (Protocol cfg)) (Targets cfg) /\
     0 < CollectionInterval cfg /\
     0 < Timeout cfg /\
     (Protocol cfg = "udp" \/ Protocol cfg = "icmp" \/ Protocol cfg = "tcp") /\
     1 <= MaxHops cfg <= 64 /\
     1 <= PacketSize cfg <= 65535 /\
     0 <= Retries cfg).
Proof.
  intros cfg. unfold Validate.
  destruct (Targets cfg) as [|t ts] eqn:ET.
  { cbn. split; [discriminate|]. intros (H & _). congruence. }
  rewrite some_targets.
  destruct (validateTargets (Protocol cfg) 0 (t :: ts)) eqn:EV.
  { split; [discriminate|]. intros (_ & HF & _).
    apply (validateTargets_None _ _ 0) in HF. congruence. }
  apply validateTargets_None in EV.
  destruct (Z.leb_spec (CollectionInterval cfg) 0);
    [split; [discriminate|intros (_ & _ & ? & _); lia]|].
  destruct (Z.leb_spec (Timeout cfg) 0);
    [split; [discriminate|intros (_ & _ & _ & ? & _); lia]|].
  destruct (String.eqb_spec (Protocol cfg) "udp") as [Pu|Pu];
    destruct (String.eqb_spec (Protocol cfg) "icmp") as [Pi|Pi];
    destruct (String.eqb_spec (Protocol cfg) "tcp") as [Pt|Pt];
    cbn [negb andb];
    try (split; [discriminate|intros (_ & _ & _ & _ & [?|[?|?]] & _);
                              contradiction]).
  all: destruct (Z.leb_spec (MaxHops cfg) 0);
    [split; [discriminate|intros (_ & _ & _ & _ & _ & ? & _); lia]|].
  all: destruct (Z.ltb_spec 64 (MaxHops cfg)); cbn [orb];
    [split; [discriminate|intros (_ & _ & _ & _ & _ & ? & _); lia]|].
  all: destruct (Z.leb_spec (PacketSize cfg) 0);
    [split; [discriminate|intros (_ & _ & _ & _ & _ & _ & ? & _); lia]|].
  all: destruct (Z.ltb_spec 65535 (PacketSize cfg)); cbn [orb];
    [split; [discriminate|intros (_ & _ & _ & _ & _ & _ & ? & _); lia]|].
  all: destruct (Z.ltb_spec (Retries cfg) 0);
    [split; [discriminate|intros (_ & _ & _ & _ & _ & _ & _ & ?); lia]|].
  all: split; [intros _|reflexivity].
  all: repeat split; auto; try lia; discriminate.
Qed.

(** X2: the error of [Validate] names the first target it rejects, by its
    index, whatever is wrong with later targets or with the rest of the
    configuration. *)
Theorem Validate_names_first_bad_target :
  forall cfg pre t rest,
    Targets cfg = (pre ++ t :: rest)%list ->
    Forall (targetOk (Protocol cfg)) pre ->
    ~ targetOk (Protocol cfg) t ->
    Validate cfg
    = Some (Go.ErrorNew
              (targetComplaint (Protocol cfg) (Z.of_nat (List.length pre)) t)).
Proof.
  intros cfg pre t rest ET Hpre Hbad. unfold Validate. rewrite ET.
  replace (Z.of_nat (List.length (pre ++ t :: rest)) =? 0) with false
    by (symmetry; apply Z.eqb_neq; rewrite length_app; cbn [List.length]; lia).
  rewrite validateTargets_skips_good by assumption.
  cbn [validateTargets Z.add]. unfold targetComplaint.
  destruct (String.eqb_spec (Endpoint t) EmptyString) as [E|E]; [reflexivity|].
  destruct (String.eqb_spec (Protocol cfg) "icmp") as [P|P].
  { exfalso. apply Hbad. split; auto. }
  destruct (Z.leb_spec (Port t) 0) as [L|L]; [reflexivity|].
  exfalso. apply Hbad. split; auto.
Qed.

Lemma Validate_names_first_bad_target_witness :
  Validate secondTargetBad
  = Some (Go.ErrorNew
            (targetComplaint (Protocol secondTargetBad) (Z.of_nat 1)
               {| Endpoint := "example.org"; Port := 0; Tags := [] |})).
Proof.
  apply (Validate_names_first_bad_target secondTargetBad
           [ {| Endpoint := "example.com"; Port := 80; Tags := [] |} ]
           {| Endpoint := "example.org"; Port := 0; Tags := [] |}
           [ {| Endpoint := EmptyString; Port := 0; Tags := [] |} ]).
  - reflexivity.
  - apply Forall_cons; [|apply Forall_nil].
    split; [discriminate|right; cbn; lia].
  - intros [_ [H|H]]; [discriminate|cbn in H; lia].
Defined.

(** X3: the default configuration is rejected for want of targets, and
    becomes valid exactly by listing at least one target, each with an
    endpoint and a positive port (the default protocol is udp). *)
Theorem default_config_needs_only_targets :
  forall ts,
    Validate createDefaultConfig
    = Some (Go.ErrorNew "at least one target must be specified") /\
    (Validate (withTargets ts createDefaultConfig) = None <->
     ts <> [] /\
     Forall (fun t => Endpoint t <> EmptyString /\ 0 < Port t) ts).
Proof.
  intros ts. split; [reflexivity|].
  unfold Validate. cbn [Targets Protocol withTargets createDefaultConfig].
  destruct ts as [|t ts].
  { cbn. split; [discriminate|]. intros [H _]. congruence. }
  rewrite some_targets.
  assert (Hok : Forall (targetOk "udp") (t :: ts) <->
                Forall (fun t => Endpoint t <> EmptyString /\ 0 < Port t)
                       (t :: ts)).
  { rewrite !Forall_forall. unfold targetOk.
    split; intros H x Hx; destruct (H x Hx) as [E P]; split; auto.
    destruct P as [P|P]; [discriminate|assumption]. }
  destruct (validateTargets "udp" 0 (t :: ts)) eqn:EV.
  - split; [discriminate|]. intros [_ H]. apply Hok in H.
    apply (validateTargets_None _ _ 0) in H. congruence.
  - apply validateTargets_None in EV. apply Hok in EV.
    cbn. split; [intros _; split; [discriminate|assumption]|reflexivity].
Qed.

(** ** The simulated hops and the runs of the engine *)


Lemma hopScenario_values t target config src :
  let h0 := fst (hopScenario t target config (newHop t) src) in
  ttl h0 = t /\ packetLoss h0 = 0%float /\ jitter h0 = 0%float /\
  (exists k, 0 <= k < 150 /\ latency h0 = Go.float64_of_int k /\
             (t <= 12 \/ 15 <= t -> 1 <= k)) /\
  (13 <= t <= 14 ->
   ip h0 = EmptyString /\ hostname h0 = EmptyString /\ latency h0 = 0%float) /\
  (15 <= t -> ip h0 = target) /\
  unenriched config h0.
Proof.
  unfold hopScenario, unenriched, when. rand_unfold.
  destruct (Z.leb_spec t 3); [|destruct (Z.leb_spec t 8);
    [|destruct (Z.leb_spec t 12); [|destruct (Z.leb_spec 15 t)]]];
    destruct (EnableGeolocation config), (EnableASNLookup config); hop_simpl;
    repeat match goal with
           | |- _ /\ _ => split
           | |- _ -> _ => intro
           end;
    try reflexivity; try discriminate; try lia;
    try (eexists; split; [|split; [reflexivity|]];
         match goal with
         | |- context [?d mod ?n] =>
             pose proof (Z.mod_pos_bound d n ltac:(lia)); lia
         end).
  all: exists 0; repeat split; try lia; reflexivity.
Qed.

(** [traceHop] with the ranges of its two optional draws. *)
Lemma traceHop_draws t target config src :
  exists h0 s0 h1 kj s2,
    hopScenario t target config (newHop t) src = (h0, s0) /\
    (h1 = h0 \/
     exists kp, 0 <= kp < 20 /\ h1 = set_packetLoss (Go.float64_of_int kp) h0) /\
    0 <= kj < 5 /\
    traceHop t target config src
    = (when (PrimFloat.ltb 0%float (latency h0))
            (set_jitter (Go.float64_of_int kj)) h1, s2).
Proof.
  unfold traceHop.
  destruct (hopScenario t target config (newHop t) src) as [h0 s0] eqn:E0.
  exists h0, s0.
  rand_unfold. rewrite E0. rand_unfold.
  destruct (PrimFloat.ltb _ 0x1.999999999999ap-4) eqn:F; rand_unfold; hop_simpl;
    destruct (PrimFloat.ltb 0 (latency h0)) eqn:L; rand_unfold; hop_simpl.
  - eexists (set_packetLoss _ h0), _, _. split; [reflexivity|].
    split; [right; eexists; split; [|reflexivity]|split; [|reflexivity]];
      apply Z.mod_pos_bound; lia.
  - eexists (set_packetLoss _ h0), 0, _. split; [reflexivity|].
    split; [right; eexists; split; [|reflexivity]|split; [lia|reflexivity]].
    apply Z.mod_pos_bound; lia.
  - eexists h0, _, _. split; [reflexivity|]. split; [now left|].
    split; [|reflexivity]. apply Z.mod_pos_bound; lia.
  - eexists h0, 0, _. split; [reflexivity|]. split; [now left|].
    split; [lia|reflexivity].
Qed.

Lemma traceHop_simulated t addr config src :
  let h := fst (traceHop t addr config src) in
  ttl h = t /\ simulatedValues addr h /\ unenriched config h.
Proof.
  destruct (traceHop_draws t addr config src)
    as (h0 & s0 & h1 & kj & s2 & E0 & H1 & Hkj & ->).
  pose proof (hopScenario_values t addr config src) as V.
  rewrite E0 in V. cbn [fst] in V.
  destruct V as (T0 & P0 & J0 & (k & Hk & El & Hpos) & Hto & Htgt & Hun).
  cbn [fst]. unfold simulatedValues, unenriched in *. unfold when.
  destruct (PrimFloat.ltb 0 (latency h0)) eqn:L;
    destruct H1 as [->|(kp & Hkp & ->)]; hop_simpl; rewrite ?T0.
  all: split; [reflexivity|]. all: split; [|exact Hun].
  all: split; [exists k; auto|].
  all: split; [first [exists kp; now auto
                     |exists 0; split; [lia|now rewrite P0]]|].
  all: split; [first [exists kj; now auto
                     |exists 0; split; [lia|now rewrite J0]]|].
  all: split; [|exact Htgt].
  all: intros H; destruct (Hto H) as (? & ? & E0'); repeat split; auto.
  all: rewrite E0' in L; discriminate.
Qed.

(** The loop only ever appends hops that [traceHop] built. *)
Lemma probeLoop_simulated n : forall t ctx addr config r0 src r src',
  probeLoop n t ctx addr config r0 src = (LoopDone r, src') ->
  Forall (fun h => simulatedValues addr h /\ unenriched config h) (hops r0) ->
  Forall (fun h => simulatedValues addr h /\ unenriched config h) (hops r).
Proof.
  induction n as [|n IH]; intros t ctx addr config r0 src r src'.
  - cbn. unfold Rand.ret. now intros [= <- <-].
  - cbn [probeLoop].
    destruct (ctxErr ctx t); [unfold Rand.ret; discriminate|].
    unfold Rand.bind.
    pose proof (traceHop_simulated t addr config src) as (_ & Hs).
    destruct (traceHop t addr config src) as [hop s1]. cbn [fst] in Hs.
    assert (Happ : Forall (fun h => simulatedValues addr h /\ unenriched config h)
                          (hops r0) ->
                   Forall (fun h => simulatedValues addr h /\ unenriched config h)
                          (hops (appendHop hop r0))).
    { intros H0. cbn [hops appendHop]. apply Forall_app. split; auto. }
    destruct (String.eqb (ip hop) addr).
    + unfold Rand.ret. intros [= <- <-] H0. now apply Happ.
    + intros H H0. apply (IH _ _ _ _ _ _ _ _ H). now apply Happ.
Qed.

Lemma trace_simulated resolve ctx target config src addr r e src' :
  resolve (Endpoint target) = inl addr ->
  trace resolve ctx target config src = ((Some r, e), src') ->
  Forall (fun h => simulatedValues addr h /\ unenriched config h) (hops r).
Proof.
  intros R H. apply trace_result in H.
  destruct H as (_ & addr' & r1 & R' & Hloop & ->).
  assert (addr' = addr) by congruence. subst addr'.
  rewrite sumUp_eq. cbn [hops].
  apply (probeLoop_simulated _ _ _ _ _ _ _ _ _ Hloop). constructor.
Qed.

(** X4: in a result of [trace], [targetReached] is true exactly when the
    last hop has the target's address; when it is false the hop budget is
    used up and no hop has that address. *)
Theorem targetReached_tells_how_the_loop_ended :
  forall resolve ctx target config src addr r src',
    resolve (Endpoint target) = inl addr ->
    trace resolve ctx target config src = ((Some r, None), src') ->
    (targetReached r = true ->
     exists pre h, hops r = (pre ++ [h])%list /\ ip h = addr) /\
    (targetReached r = false ->
     List.length (hops r) = Z.to_nat (MaxHops config) /\
     Forall (fun h => ip h <> addr) (hops r)).
Proof.
  intros resolve ctx target config src addr r src' R H.
  apply trace_result in H. destruct H as (_ & addr' & r1 & R' & Hloop & ->).
  assert (addr' = addr) by congruence. subst addr'.
  apply probeLoop_done in Hloop.
  destruct Hloop as (new & Eh & _ & _ & _ & _ & Hend).
  cbn [hops freshResult app] in Eh.
  rewrite sumUp_eq. cbn [hops targetReached]. rewrite Eh.
  destruct Hend as [(Hr & pre & h & -> & Hip & _)|(Hr & Hn & Hne)].
  - split; [intros _; now exists pre, h|]. congruence.
  - cbn [targetReached freshResult] in Hr. split; [congruence|]. now intros _.
Qed.

Lemma targetReached_tells_how_the_loop_ended_witness :
  (targetReached sampleResult = true ->
   exists pre h, hops sampleResult = (pre ++ [h])%list
                 /\ ip h = "93.184.216.34") /\
  (targetReached sampleResult = false ->
   List.length (hops sampleResult) = Z.to_nat (MaxHops lifecycleConfig) /\
   Forall (fun h => ip h <> "93.184.216.34") (hops sampleResult)).
Proof.
  apply (targetReached_tells_how_the_loop_ended sampleResolver neverDone
           exampleTarget lifecycleConfig sampleSource "93.184.216.34"
           sampleResult (snd sampleRun)).
  - reflexivity.
  - exact sampleRun_eq.
Defined.

(** X5: every hop of a result of [trace] has a latency, a packet loss and a
    jitter that are whole numbers in 0..149, 0..19 and 0..4; the latency is
    at least 1 except at ttl 13 and 14, where the hop is a timeout (no
    address, no hostname, latency and jitter 0); from ttl 15 on the hop has
    the target's address. *)
Theorem traced_hops_have_simulated_values :
  forall resolve ctx target config src addr r src',
    resolve (Endpoint target) = inl addr ->
    trace resolve ctx target config src = ((Some r, None), src') ->
    Forall (simulatedValues addr) (hops r).
Proof.
  intros resolve ctx target config src addr r src' R H.
  pose proof (trace_simulated _ _ _ _ _ _ _ _ _ R H) as S.
  rewrite Forall_forall in *. intros h Hin. now apply S.
Qed.

Lemma traced_hops_have_simulated_values_witness :
  Forall (simulatedValues "93.184.216.34") (hops sampleResult).
Proof.
  apply (traced_hops_have_simulated_values sampleResolver neverDone
           exampleTarget lifecycleConfig sampleSource "93.184.216.34"
           sampleResult (snd sampleRun)).
  - reflexivity.
  - exact sampleRun_eq.
Defined.

Lemma scrub_unenriched config h :
  EnableGeolocation config = false -> EnableASNLookup config = false ->
  unenriched config h -> scrub h = h.
Proof.
  intros G A [Hg Ha]. destruct (Hg G) as [Ec Ek]. destruct (Ha A) as [Ea Ep].
  destruct h. cbn in Ec, Ek, Ea, Ep. subst. reflexivity.
Qed.

(** X6: a result of [trace] carries no city or country when geolocation is
    disabled and no asn or provider when the ASN lookup is disabled, so that
    with both disabled blanking these fields changes nothing. *)
Theorem traced_hops_respect_the_flags :
  forall resolve ctx target config src addr r src',
    resolve (Endpoint target) = inl addr ->
    trace resolve ctx target config src = ((Some r, None), src') ->
    Forall (unenriched config) (hops r) /\
    (EnableGeolocation config = false -> EnableASNLookup config = false ->
     scrubResult r = r).
Proof.
  intros resolve ctx target config src addr r src' R H.
  pose proof (trace_simulated _ _ _ _ _ _ _ _ _ R H) as S.
  assert (U : Forall (unenriched config) (hops r)).
  { rewrite Forall_forall in *. intros h Hin. now apply S. }
  split; [exact U|]. intros G A.
  destruct r as [hs tl tr]. unfold scrubResult.
  cbn [hops totalLatency targetReached] in U |- *. f_equal. clear S H.
  induction U as [|h hs Hh _ IH]; [reflexivity|].
  cbn [map]. now rewrite IH, (scrub_unenriched config h G A Hh).
Qed.

Lemma traced_hops_respect_the_flags_witness :
  Forall (unenriched lifecycleConfig) (hops sampleResult) /\
  (EnableGeolocation lifecycleConfig = false ->
   EnableASNLookup lifecycleConfig = false ->
   scrubResult sampleResult = sampleResult).
Proof.
  apply (traced_hops_respect_the_flags sampleResolver neverDone
           exampleTarget lifecycleConfig sampleSource "93.184.216.34"
           sampleResult (snd sampleRun)).
  - reflexivity.
  - exact sampleRun_eq.
Defined.






(** ** The metrics batch *)

Lemma filter_latency_hops config ts hs :
  filter isLatencyMetric (flat_map (hopMetrics config ts) hs)
  = map (latencyMetric config ts) hs.
Proof.
  induction hs as [|h hs IH]; [reflexivity|].
  cbn [flat_map map]. rewrite filter_app, IH. f_equal.
  unfold hopMetrics.
  destruct (PrimFloat.ltb 0 (packetLoss h)), (PrimFloat.ltb 0 (jitter h));
    reflexivity.
Qed.

Lemma filter_loss_hops config ts hs :
  filter isLossMetric (flat_map (hopMetrics config ts) hs)
  = map (lossMetric ts)
        (filter (fun h => PrimFloat.ltb 0%float (packetLoss h)) hs).
Proof.
  induction hs as [|h hs IH]; [reflexivity|].
  cbn [flat_map filter]. rewrite filter_app, IH. unfold hopMetrics.
  destruct (PrimFloat.ltb 0 (packetLoss h)), (PrimFloat.ltb 0 (jitter h));
    reflexivity.
Qed.


(** X9: the metrics batch has one latency gauge per hop, in hop order,
    whether or not the hop answered. *)
Theorem latency_gauge_per_hop :
  forall config now result target,
    filter isLatencyMetric
           (allMetrics (convertToMetrics config now result target))
    = map (latencyMetric config (NewTimestampFromTime now)) (hops result).
Proof.
  intros. rewrite allMetrics_convertToMetrics, !filter_app, filter_latency_hops.
  destruct (PrimFloat.ltb 0 (totalLatency result)); cbn; now rewrite app_nil_r.
Qed.

(** X10: the packet-loss gauges of the metrics batch are exactly those of
    the hops whose packet loss is greater than zero, in hop order. *)
Theorem loss_samples_follow_loss :
  forall config now result target,
    filter isLossMetric
           (allMetrics (convertToMetrics config now result target))
    = map (lossMetric (NewTimestampFromTime now))
          (filter (fun h => PrimFloat.ltb 0%float (packetLoss h))
                  (hops result)).
Proof.
  intros. rewrite allMetrics_convertToMetrics, !filter_app, filter_loss_hops.
  destruct (PrimFloat.ltb 0 (totalLatency result)); cbn; now rewrite app_nil_r.
Qed.


Lemma length_hopMetrics config ts hs :
  (List.length hs <= List.length (flat_map (hopMetrics config ts) hs)
   <= 3 * List.length hs)%nat.
Proof.
  induction hs as [|h hs IH]; [cbn; lia|].
  cbn [flat_map List.length]. rewrite length_app.
  assert (1 <= List.length (hopMetrics config ts h) <= 3)%nat.
  { unfold hopMetrics.
    destruct (PrimFloat.ltb 0 (packetLoss h)), (PrimFloat.ltb 0 (jitter h));
      cbn [List.length app]; lia. }
  lia.
Qed.

Lemma hopMetrics_oneSample config ts h :
  Forall (oneSampleAt ts) (hopMetrics config ts h).
Proof.
  unfold hopMetrics.
  destruct (PrimFloat.ltb 0 (packetLoss h)), (PrimFloat.ltb 0 (jitter h));
    repeat constructor; eexists _, _; reflexivity.
Qed.

(** X12: every gauge of the metrics batch has exactly one data point, all
    taken at the one reading of the clock, and for n hops the batch has
    between n + 1 and 3 n + 2 gauges. *)
Theorem metrics_batch_shape :
  forall config now result target,
    let batch := allMetrics (convertToMetrics config now result target) in
    Forall (oneSampleAt (NewTimestampFromTime now)) batch /\
    (List.length (hops result) + 1 <= List.length batch
     <= 3 * List.length (hops result) + 2)%nat.
Proof.
  intros. subst batch. rewrite allMetrics_convertToMetrics. split.
  - apply Forall_app. split.
    + apply Forall_flat_map. rewrite Forall_forall. intros h _.
      apply hopMetrics_oneSample.
    + destruct (PrimFloat.ltb 0 (totalLatency result));
        repeat constructor; eexists _, _; reflexivity.
  - rewrite !length_app.
    pose proof (length_hopMetrics config (NewTimestampFromTime now)
                  (hops result)).
    destruct (PrimFloat.ltb 0 (totalLatency result)); cbn [List.length]; lia.
Qed.

(** ** Resource attributes *)

Lemma Get_Put_same k v m : Get k (Put k v m) = Some v.
Proof.
  induction m as [|[k' v'] m IH]; cbn [Put Get].
  - now rewrite String.eqb_refl.
  - destruct (String.eqb k' k) eqn:E; cbn [Get].
    + now rewrite String.eqb_refl.
    + now rewrite E.
Qed.

Lemma Get_Put_other k k' v m : k <> k' -> Get k (Put k' v m) = Get k m.
Proof.
  intros Hne. induction m as [|[k0 v0] m IH]; cbn [Put Get].
  - destruct (String.eqb_spec k' k); [congruence|reflexivity].
  - destruct (String.eqb_spec k0 k') as [->|E]; cbn [Get].
    + destruct (String.eqb_spec k' k); [congruence|reflexivity].
    + destruct (String.eqb k0 k); auto.
Qed.

Lemma Get_putTags_absent tags : forall k m,
  ~ In k (map fst tags) -> Get k (run (putTags tags) m) = Get k m.
Proof.
  unfold run. induction tags as [|[k0 v0] tags IH]; intros k m Hk; [reflexivity|].
  cbn [putTags map fold_left fst snd].
  fold (putTags tags). rewrite IH by (intros Hin; apply Hk; cbn; now right).
  unfold PutStr. apply Get_Put_other. intros ->. apply Hk. cbn. now left.
Qed.

Lemma Get_putTags_present tags : forall k v m,
  NoDup (map fst tags) -> In (k, v) tags ->
  Get k (run (putTags tags) m) = Some (ValueStr v).
Proof.
  induction tags as [|[k0 v0] tags IH]; intros k v m Hnd Hin; [destruct Hin|].
  cbn [map fst] in Hnd. inversion Hnd as [|? ? Hnot Hnd']; subst.
  unfold run in *. cbn [putTags map fold_left fst snd].
  destruct Hin as [[= -> ->]|Hin].
  - fold (run (putTags tags) (PutStr k v m)).
    rewrite Get_putTags_absent by assumption. apply Get_Put_same.
  - now apply IH.
Qed.

Lemma resource_split config target :
  metricsResource config target
  = run (putTags (Tags target))
        (run [ PutStr "ztrace.target" (Endpoint target);
               PutStr "ztrace.protocol" (Protocol config);
               guarded (0 <? Port target) [PutInt "ztrace.port" (Port target)] ]
             []) /\
  tracesResource config target
  = run (putTags (Tags target))
        (run [ PutStr "ztrace.target" (Endpoint target);
               PutStr "ztrace.protocol" (Protocol config);
               PutStr "service.name" "ztrace";
               guarded (0 <? Port target) [PutInt "ztrace.port" (Port target)] ]
             []).
Proof.
  unfold metricsResource, tracesResource, run. now rewrite !fold_left_app.
Qed.

(** X13: every user tag is a resource attribute of both batches, with its
    value as a string; this holds for a tag named like one of the receiver's
    own attributes too, which it then replaces. *)
Theorem tags_are_copied_verbatim :
  forall config target k v,
    NoDup (map fst (Tags target)) ->
    In (k, v) (Tags target) ->
    Get k (metricsResource config target) = Some (ValueStr v) /\
    Get k (tracesResource config target) = Some (ValueStr v).
Proof.
  intros config target k v Hnd Hin.
  destruct (resource_split config target) as [-> ->].
  split; now apply Get_putTags_present.
Qed.

Lemma tags_are_copied_verbatim_witness :
  Get "ztrace.target" (metricsResource bareConfig shadowingTarget)
  = Some (ValueStr "alias") /\
  Get "ztrace.target" (tracesResource bareConfig shadowingTarget)
  = Some (ValueStr "alias").
Proof.
  apply (tags_are_copied_verbatim bareConfig shadowingTarget).
  - cbn. repeat (apply NoDup_cons; [cbn; intuition discriminate|]).
    apply NoDup_nil.
  - cbn. right. left. reflexivity.
Defined.

(** X14: unless a tag of the same name replaces them, the resource
    attributes give the target's endpoint, the protocol and, for the trace
    batch, the service name ztrace; the port is given when it is greater than
    zero and is absent otherwise. *)
Theorem own_resource_attributes :
  forall config target k,
    ~ In k (map fst (Tags target)) ->
    In k ["ztrace.target"; "ztrace.protocol"; "service.name"; "ztrace.port"] ->
    let own (traces : bool) : option Value :=
      if String.eqb k "ztrace.target" then Some (ValueStr (Endpoint target))
      else if String.eqb k "ztrace.protocol"
           then Some (ValueStr (Protocol config))
      else if String.eqb k "service.name"
           then (if traces then Some (ValueStr "ztrace") else None)
      else if 0 <? Port target then Some (ValueInt (Port target)) else None in
    Get k (metricsResource config target) = own false /\
    Get k (tracesResource config target) = own true.
Proof.
  intros config target k Hk Hin own. subst own.
  destruct (resource_split config target) as [-> ->].
  rewrite !Get_putTags_absent by assumption.
  cbn [In] in Hin.
  destruct Hin as [<-|[<-|[<-|[<-|[]]]]];
    destruct (0 <? Port target); split; reflexivity.
Qed.

Lemma own_resource_attributes_witness :
  Get "ztrace.port" (metricsResource bareConfig exampleTarget)
  = Some (ValueInt 80) /\
  Get "ztrace.port" (tracesResource bareConfig exampleTarget)
  = Some (ValueInt 80).
Proof.
  apply (own_resource_attributes bareConfig exampleTarget "ztrace.port").
  - cbn. intuition discriminate.
  - cbn. auto.
Defined.

Lemma NoDup_keys_Put k v m : NoDup (keys m) -> NoDup (keys (Put k v m)).
Proof.
  unfold keys. induction m as [|[k' v'] m IH]; cbn [Put map fst]; intros H.
  - repeat constructor. intros [].
  - inversion H as [|? ? Hnot Hnd]; subst.
    destruct (String.eqb_spec k' k) as [->|E]; cbn [map fst].
    + now constructor.
    + constructor; [|now apply IH].
      intros Hin. apply keys_Put in Hin. destruct Hin; [congruence|contradiction].
Qed.

Lemma NoDup_keys_run calls : forall m,
  Forall (fun c => forall m', NoDup (keys m') -> NoDup (keys (c m'))) calls ->
  NoDup (keys m) -> NoDup (keys (run calls m)).
Proof.
  unfold run. induction calls as [|c calls IH]; intros m Hc Hm; [exact Hm|].
  inversion Hc; subst. cbn [fold_left]. apply IH; auto.
Qed.

(** X15: the resource attributes of both batches have pairwise distinct
    keys, whatever the tags. *)
Theorem resource_keys_are_distinct :
  forall config target,
    NoDup (keys (metricsResource config target)) /\
    NoDup (keys (tracesResource config target)).
Proof.
  intros config target.
  assert (P : forall k v m', NoDup (keys m') -> NoDup (keys (Put k v m')))
    by (intros; now apply NoDup_keys_Put).
  assert (G : forall m', NoDup (keys m') ->
                NoDup (keys (guarded (0 <? Port target)
                               [PutInt "ztrace.port" (Port target)] m'))).
  { intros m' Hm. unfold guarded. destruct (0 <? Port target); [|exact Hm].
    cbn. now apply P. }
  assert (T : Forall (fun c => forall m', NoDup (keys m') -> NoDup (keys (c m')))
                     (putTags (Tags target))).
  { unfold putTags. rewrite Forall_forall. intros c Hc.
    apply in_map_iff in Hc. destruct Hc as ([k v] & <- & _). intros. now apply P. }
  split; apply NoDup_keys_run; try apply NoDup_nil;
    apply Forall_app; (split; [|exact T]);
    repeat (apply Forall_cons; [first [exact G|intros; now apply P]|]);
    apply Forall_nil.
Qed.

(** ** The trace batch *)




(** X17: the attributes of a hop span: ttl, ip and latency always; the
    hostname when it is not empty; packet loss and jitter when greater than
    zero; city and country when geolocation is enabled and the city is not
    empty; asn and provider when the ASN lookup is enabled and the asn is not
    empty (so a country without a city, or a provider without an asn, is
    not published). *)
Theorem hop_span_attributes :
  forall config startTime h,
    let a := ptrace.spAttributes (hopSpan config startTime h) in
    let geo := EnableGeolocation config && nonEmpty (city h) in
    let net := EnableASNLookup config && nonEmpty (asn h) in
    Get "ttl" a = Some (ValueInt (ttl h)) /\
    Get "ip" a = Some (ValueStr (ip h)) /\
    Get "latency.ms" a = Some (ValueDouble (latency h)) /\
    Get "hostname" a = strIf (nonEmpty (hostname h)) (hostname h) /\
    Get "packet_loss.percent" a = doubleIfPositive (packetLoss h) /\
    Get "jitter.ms" a = doubleIfPositive (jitter h) /\
    Get "geo.city" a = strIf geo (city h) /\
    Get "geo.country" a = strIf geo (country h) /\
    Get "network.asn" a = strIf net (asn h) /\
    Get "network.provider" a = strIf net (provider h).
Proof.
  intros config startTime h a geo net. subst a geo net.
  cbn [ptrace.spAttributes hopSpan]. unfold doubleIfPositive.
  destruct (nonEmpty (hostname h)), (PrimFloat.ltb 0 (packetLoss h)),
    (PrimFloat.ltb 0 (jitter h)),
    (EnableGeolocation config && nonEmpty (city h)),
    (EnableASNLookup config && nonEmpty (asn h)); repeat split.
Qed.

(** X18: the attributes of a hop's latency data point: ttl and ip always;
    the hostname when it is not empty; city and country when geolocation is
    enabled and the city is not empty; asn and provider when the ASN lookup
    is enabled and the asn is not empty. *)
Theorem latency_point_attributes :
  forall config ts h,
    let geo := EnableGeolocation config && nonEmpty (city h) in
    let net := EnableASNLookup config && nonEmpty (asn h) in
    exists a,
      map pmetric.dpAttributes (pmetric.Gauge (latencyMetric config ts h)) = [a] /\
      Get "ttl" a = Some (ValueInt (ttl h)) /\
      Get "ip" a = Some (ValueStr (ip h)) /\
      Get "hostname" a = strIf (nonEmpty (hostname h)) (hostname h) /\
      Get "city" a = strIf geo (city h) /\
      Get "country" a = strIf geo (country h) /\
      Get "asn" a = strIf net (asn h) /\
      Get "provider" a = strIf net (provider h).
Proof.
  intros config ts h geo net. subst geo net.
  eexists. split; [reflexivity|].
  destruct (nonEmpty (hostname h)),
    (EnableGeolocation config && nonEmpty (city h)),
    (EnableASNLookup config && nonEmpty (asn h)); repeat split.
Qed.

(** X19: the trace batch has one span per hop after its root span, all of
    kind client; the root span is named after the target's endpoint and says
    how many hops there are and what the total latency is. *)
Theorem trace_batch_shape :
  forall config now1 now2 result target,
    exists root children,
      allSpans (convertToTraces config now1 now2 result target)
      = root :: children /\
      List.length children = List.length (hops result) /\
      Forall (fun s => ptrace.spKind s = ptrace.SpanKindClient)
             (root :: children) /\
      ptrace.spName root = "traceroute to " ++ Endpoint target /\
      Get "hop.count" (ptrace.spAttributes root)
      = Some (ValueInt (Z.of_nat (List.length (hops result)))) /\
      Get "total.latency.ms" (ptrace.spAttributes root)
      = Some (ValueDouble (totalLatency result)).
Proof.
  intros. rewrite allSpans_convertToTraces. cbv zeta.
  eexists _, _. split; [reflexivity|]. rewrite length_map.
  repeat split.
  constructor; [reflexivity|].
  rewrite Forall_map, Forall_forall. intros h _. reflexivity.
Qed.

(** ** Invocations and jobs *)

Lemma deliveries_of_deliverMetrics config sinks env r target :
  filter isDelivery (deliverMetrics config sinks env r target)
  = match consumer sinks with
    | Some _ => [ConsumeMetrics
                   (convertToMetrics config (nowMetrics env) r target)]
    | None => []
    end.
Proof.
  unfold deliverMetrics. destruct (consumer sinks) as [c|]; [|reflexivity].
  cbn. now destruct (c _).
Qed.

Lemma deliveries_of_deliverTraces config sinks env r target :
  filter isDelivery (deliverTraces config sinks env r target)
  = match traceConsumer sinks with
    | Some _ => [ConsumeTraces
                   (convertToTraces config (nowTraces1 env) (nowTraces2 env)
                                    r target)]
    | None => []
    end.
Proof.
  unfold deliverTraces. destruct (traceConsumer sinks) as [c|]; [|reflexivity].
  cbn. now destruct (c _).
Qed.

(** X20: an invocation whose trace fails hands nothing to any consumer; one
    whose trace succeeds hands each consumer the receiver has exactly one
    batch, the projection of the traced result, metrics before traces, and
    this does not depend on what the consumers answer.  Either way the
    invocation never dereferences a nil result. *)
Theorem runTrace_deliveries :
  forall config sinks env target src,
    let effects := fst (runTrace config sinks env target src) in
    ~ In NilDereference effects /\
    filter isDelivery effects
    = match fst (trace (resolver env) (context env) target config src) with
      | (Some r, None) =>
          ((match consumer sinks with
            | Some _ => [ConsumeMetrics
                           (convertToMetrics config (nowMetrics env) r target)]
            | None => []
            end)
           ++ (match traceConsumer sinks with
               | Some _ => [ConsumeTraces
                              (convertToTraces config (nowTraces1 env)
                                 (nowTraces2 env) r target)]
               | None => []
               end))%list
      | _ => []
      end.
Proof.
  intros config sinks env target src effects. subst effects.
  unfold runTrace, Rand.bind.
  destruct (trace (resolver env) (context env) target config src)
    as [[[r|] [e|]] src'] eqn:T; unfold Rand.ret; cbn [fst].
  - apply trace_result in T. destruct T as [T _]. discriminate.
  - split.
    + cbn [In]. intros [H|H]; [discriminate|].
      apply in_app_or in H. unfold deliverMetrics, deliverTraces in H.
      destruct (consumer sinks) as [c|], (traceConsumer sinks) as [c'|];
        cbn in H;
        repeat match goal with
               | H : context [match ?x with Some _ => _ | None => _ end] |- _ =>
                   destruct x
               end; cbn in H; intuition discriminate.
    + cbn [filter isInvocation isDelivery].
      now rewrite filter_app, deliveries_of_deliverMetrics,
        deliveries_of_deliverTraces.
  - split; [cbn; intuition discriminate|reflexivity].
  - exfalso. unfold trace in T.
    destruct (resolver env (Endpoint target)); unfold Rand.bind, Rand.ret in T.
    + destruct (probeLoop _ _ _ _ _ _ _) as [[?|?] ?]; discriminate.
    + discriminate.
Qed.





(** ** The receiver's life cycle *)

(** [Shutdown] on a receiver that was never started (no stop channel
    made, [Once] not fired) panics on closing the nil channel. *)
Lemma Shutdown_before_Start_panics :
  forall s,
    Receiver.stopCh s = Receiver.ChanNil ->
    Receiver.stopOnce s = false ->
    Receiver.Shutdown s = Receiver.Panics "close of nil channel".
Proof.
  intros s C O. unfold Receiver.Shutdown. now rewrite O, C.
Qed.

(** X22: a receiver cannot be restarted: once a [Shutdown] has fired the
    [Once], a later [Start] with at least one target launches jobs that
    nothing will ever stop, and the [Shutdown] after it blocks for ever. *)
Theorem Shutdown_after_restart_blocks :
  forall config s,
    Receiver.stopOnce s = true ->
    Targets config <> [] ->
    exists s' trail,
      Receiver.Start config s = Receiver.Returns None s' trail /\
      Receiver.Shutdown s' = Receiver.Blocks.
Proof.
  intros config s O T. eexists _, _. split; [reflexivity|].
  unfold Receiver.Shutdown, Receiver.afterOnce, Receiver.Wait.
  cbn [Receiver.stopOnce Receiver.wg Receiver.stopCh]. rewrite O.
  destruct (Targets config) as [|t ts]; [contradiction|].
  cbn [List.length]. now rewrite Nat.add_succ_r.
Qed.

Lemma Shutdown_after_restart_blocks_witness :
  exists s' trail,
    Receiver.Start lifecycleConfig stoppedState
    = Receiver.Returns None s' trail /\
    Receiver.Shutdown s' = Receiver.Blocks.
Proof.
  apply (Shutdown_after_restart_blocks lifecycleConfig stoppedState).
  - reflexivity.
  - discriminate.
Defined.

(** ** iperfreceiver: validation *)

(** The errors and the defaults of [TargetConfig.Validate], rule by rule. *)
Lemma TargetConfig_Validate_rules t :
  Iperf.TargetConfig_Validate t
  = ((if String.eqb (Iperf.Host t) EmptyString
      then [Iperf.errInvalidHost] else [])
     ++ (if (Iperf.Port t <? 1) || (65535 <? Iperf.Port t)
         then [Iperf.errInvalidPort] else [])
     ++ (if Iperf.Streams t <? 0 then [Iperf.errInvalidStreams] else [])
     ++ (if negb (String.eqb (Iperf.Protocol t) EmptyString)
            && negb (String.eqb (Iperf.Protocol t) "tcp")
            && negb (String.eqb (Iperf.Protocol t) "udp")
            && negb (String.eqb (Iperf.Protocol t) "sctp")
         then [("invalid protocol: " ++ Iperf.Protocol t
                ++ ", must be tcp, udp, or sctp")%string] else [])
     ++ (if Iperf.OmitSec t <? 0
         then ["omit seconds cannot be negative"] else [])
     ++ (if Iperf.MSS t <? 0 then ["MSS cannot be negative"] else []),
     {| Iperf.Host := Iperf.Host t; Iperf.Port := Iperf.Port t;
        Iperf.Duration := if Iperf.Duration t <=? 0
                          then 10 * Iperf.Second else Iperf.Duration t;
        Iperf.Streams := if Iperf.Streams t =? 0 then 1 else Iperf.Streams t;
        Iperf.Protocol := if String.eqb (Iperf.Protocol t) EmptyString
                          then "tcp" else Iperf.Protocol t;
        Iperf.Reverse := Iperf.Reverse t; Iperf.Bandwidth := Iperf.Bandwidth t;
        Iperf.Window := Iperf.Window t; Iperf.MSS := Iperf.MSS t;
        Iperf.NoDelay := Iperf.NoDelay t; Iperf.OmitSec := Iperf.OmitSec t;
        Iperf.ZeroCopy := Iperf.ZeroCopy t;
        Iperf.Congestion := Iperf.Congestion t |})%list.
Proof.
  destruct t as [host port dur streams proto rev bw win mss nd omit zc cong].
  iperf_unfold.
  destruct (String.eqb host EmptyString),
    ((port <? 1) || (65535 <? port)), (dur <=? 0); iperf_unfold.
  all: destruct (Z.ltb_spec streams 0), (Z.eqb_spec streams 0); try lia;
    iperf_unfold.
  all: destruct (String.eqb proto EmptyString), (String.eqb proto "tcp"),
    (String.eqb proto "udp"), (String.eqb proto "sctp"); iperf_unfold;
    cbn [negb andb]; cbv iota; iperf_unfold.
  all: destruct (omit <? 0), (mss <? 0); reflexivity.
Qed.

Lemma app_nil_iff {A : Type} (l m : list A) :
  (l ++ m)%list = [] <-> l = [] /\ m = [].
Proof.
  split; [apply app_eq_nil|]. now intros [-> ->].
Qed.

Lemma optional_nil {A : Type} (c : bool) (x : A) :
  (if c then [x] else []) = [] <-> c = false.
Proof. destruct c; split; (discriminate || reflexivity). Qed.

Lemma TargetConfig_Validate_nil t :
  fst (Iperf.TargetConfig_Validate t) = [] <-> Iperf.acceptable t.
Proof.
  rewrite TargetConfig_Validate_rules. cbn [fst].
  rewrite !app_nil_iff, !optional_nil. unfold Iperf.acceptable.
  rewrite String.eqb_neq, orb_false_iff, !Z.ltb_ge, !andb_false_iff,
    !negb_false_iff, !String.eqb_eq.
  tauto.
Qed.

(** X23: [TargetConfig.Validate] returns no error exactly when the host is
    not empty, the port is within 1..65535, streams, omit seconds and MSS are
    not negative and the protocol is empty, tcp, udp or sctp; the duration is
    never a reason to reject ("duration must be positive" is not among its
    errors). *)
Theorem TargetConfig_Validate_accepts_iff :
  forall t,
    (fst (Iperf.TargetConfig_Validate t) = [] <-> Iperf.acceptable t) /\
    ~ In Iperf.errInvalidDuration (fst (Iperf.TargetConfig_Validate t)).
Proof.
  intros t. split; [apply TargetConfig_Validate_nil|].
  rewrite TargetConfig_Validate_rules. cbn [fst].
  rewrite !in_app_iff.
  destruct (String.eqb (Iperf.Host t) EmptyString),
    ((Iperf.Port t <? 1) || (65535 <? Iperf.Port t)),
    (Iperf.Streams t <? 0),
    (negb (String.eqb (Iperf.Protocol t) EmptyString)
     && negb (String.eqb (Iperf.Protocol t) "tcp")
     && negb (String.eqb (Iperf.Protocol t) "udp")
     && negb (String.eqb (Iperf.Protocol t) "sctp")),
    (Iperf.OmitSec t <? 0), (Iperf.MSS t <? 0); cbn [In];
    intuition discriminate.
Qed.

(** X24: [TargetConfig.Validate] leaves a target with a positive duration
    (10 s in place of a non-positive one) and touches nothing but duration,
    streams and protocol; when it returns no error, the target it leaves has
    at least one stream and one of the protocols tcp, udp and sctp. *)
Theorem TargetConfig_Validate_fills_defaults :
  forall t,
    let t' := snd (Iperf.TargetConfig_Validate t) in
    0 < Iperf.Duration t' /\
    (0 < Iperf.Duration t -> Iperf.Duration t' = Iperf.Duration t) /\
    (Iperf.Duration t <= 0 -> Iperf.Duration t' = 10 * Iperf.Second) /\
    Iperf.set_Duration 0 (Iperf.set_Streams 0 (Iperf.set_Protocol EmptyString t'))
    = Iperf.set_Duration 0 (Iperf.set_Streams 0 (Iperf.set_Protocol EmptyString t)) /\
    (fst (Iperf.TargetConfig_Validate t) = [] ->
     1 <= Iperf.Streams t' /\
     (Iperf.Protocol t' = "tcp" \/ Iperf.Protocol t' = "udp"
      \/ Iperf.Protocol t' = "sctp")).
Proof.
  intros t t'. subst t'.
  pose proof (TargetConfig_Validate_nil t) as N.
  rewrite TargetConfig_Validate_rules in *. cbn [fst snd] in *.
  cbn [Iperf.Duration Iperf.Streams Iperf.Protocol].
  split; [|split; [|split; [|split]]].
  - destruct (Z.leb_spec (Iperf.Duration t) 0); [reflexivity|assumption].
  - intros H. destruct (Z.leb_spec (Iperf.Duration t) 0); [lia|reflexivity].
  - intros H. destruct (Z.leb_spec (Iperf.Duration t) 0); [reflexivity|lia].
  - reflexivity.
  - intros H. apply N in H. destruct H as (_ & _ & Hs & Hp & _).
    split.
    + destruct (Z.eqb_spec (Iperf.Streams t) 0); lia.
    + destruct Hp as [-> | [-> | [-> | ->]]]; cbn; auto.
Qed.

(** X25: validating a target a second time changes nothing further and
    reports what the first time reported. *)
Theorem TargetConfig_Validate_idempotent :
  forall t,
    Iperf.TargetConfig_Validate (snd (Iperf.TargetConfig_Validate t))
    = Iperf.TargetConfig_Validate t.
Proof.
  intros t. rewrite (TargetConfig_Validate_rules t). cbn [snd].
  rewrite TargetConfig_Validate_rules.
  destruct t as [host port dur streams proto rev bw win mss nd omit zc cong].
  cbn [Iperf.Host Iperf.Port Iperf.Duration Iperf.Streams Iperf.Protocol
       Iperf.Reverse Iperf.Bandwidth Iperf.Window Iperf.MSS Iperf.NoDelay
       Iperf.OmitSec Iperf.ZeroCopy Iperf.Congestion].
  destruct (dur <=? 0) eqn:D;
    destruct (Z.eqb_spec streams 0) as [Hs|Hs];
    destruct (String.eqb_spec proto EmptyString) as [Hp|Hp]; subst;
    cbv iota;
    rewrite ?D, ?(proj2 (Z.eqb_neq _ _) Hs),
      ?(proj2 (String.eqb_neq _ _) Hp);
    reflexivity.
Qed.

Lemma validateTargets_app ts : forall i err,
  Iperf.validateTargets i ts err
  = (err ++ Iperf.validateTargets i ts [])%list.
Proof.
  induction ts as [|t ts IH]; intros i err; cbn [Iperf.validateTargets].
  - now rewrite app_nil_r.
  - rewrite IH. rewrite (IH _ (match fst (Iperf.TargetConfig_Validate t) with
                               | [] => []
                               | _ :: _ => _
                               end)).
    destruct (fst (Iperf.TargetConfig_Validate t)); [reflexivity|].
    unfold Iperf.Append. now rewrite <- app_assoc.
Qed.

Lemma validateTargets_nil ts : forall i,
  Iperf.validateTargets i ts [] = [] <-> Forall Iperf.acceptable ts.
Proof.
  induction ts as [|t ts IH]; intros i; cbn [Iperf.validateTargets].
  - split; auto.
  - rewrite validateTargets_app, app_nil_iff, IH.
    pose proof (TargetConfig_Validate_nil t) as N.
    destruct (fst (Iperf.TargetConfig_Validate t)) as [|e es].
    + split; [intros [_ H]; constructor; [now apply N|exact H]|].
      intros H. inversion H. auto.
    + split; [intros [H _]; discriminate|].
      intros H. inversion H as [|? ? Ha _]. apply N in Ha. discriminate.
Qed.

Lemma some_targets_iperf (t : Iperf.TargetConfig) ts :
  (Z.of_nat (List.length (t :: ts)) =? 0) = false.
Proof. apply Z.eqb_neq. cbn [List.length]. lia. Qed.

(** X26: [Config.Validate] returns no error exactly when the mode is
    server and the server port is within 1..65535, or the mode is client or
    empty and there is at least one target and every target is acceptable to
    [TargetConfig.Validate]. *)
Theorem Config_Validate_accepts_iff :
  forall cfg,
    fst (Iperf.Config_Validate cfg) = [] <->
    (Iperf.Mode cfg = "server" /\ 1 <= Iperf.ServerPort cfg <= 65535) \/
    ((Iperf.Mode cfg = "client" \/ Iperf.Mode cfg = EmptyString) /\
     Iperf.Targets cfg <> [] /\ Forall Iperf.acceptable (Iperf.Targets cfg)).
Proof.
  intros [ts mode port]. iperf_config_unfold.
  assert (C : forall err : list Iperf.issue,
             Iperf.validateTargets 0 ts
               (if Z.of_nat (List.length ts) =? 0
                then Iperf.Append err (Iperf.Plain Iperf.errNoTargets)
                else err) = [] <->
             err = [] /\ ts <> [] /\ Forall Iperf.acceptable ts).
  { intros err. rewrite validateTargets_app, app_nil_iff, validateTargets_nil.
    destruct ts as [|t ts'].
    - cbn. unfold Iperf.Append. split; [intros [H _]|intros (_ & H & _)].
      + now destruct err.
      + congruence.
    - rewrite some_targets_iperf. split; [intros [-> H]|intros (-> & _ & H)];
        repeat split; auto; discriminate. }
  destruct (String.eqb_spec mode "client") as [->|Hc].
  { cbn [String.eqb Ascii.eqb Bool.eqb negb andb fst]. rewrite C.
    split; [intros (_ & H1 & H2); right; auto|].
    intros [[H _]|(_ & H1 & H2)]; [discriminate|auto]. }
  destruct (String.eqb_spec mode "server") as [->|Hs].
  { cbn [String.eqb Ascii.eqb Bool.eqb negb andb fst].
    destruct (Z.ltb_spec port 1); [cbn; split; [discriminate|
      intros [[_ H']|[[H'|H'] _]]; [lia|discriminate|discriminate]]|].
    destruct (Z.ltb_spec 65535 port); cbn; [split; [discriminate|
      intros [[_ H']|[[H'|H'] _]]; [lia|discriminate|discriminate]]|].
    split; [intros _; left; split; [reflexivity|lia]|reflexivity]. }
  destruct (String.eqb_spec mode EmptyString) as [->|He].
  { cbn [String.eqb Ascii.eqb Bool.eqb negb andb fst]. rewrite C.
    split; [intros (_ & H1 & H2); right; auto|].
    intros [[H _]|(_ & H1 & H2)]; [discriminate|auto]. }
  cbn [negb andb]. cbv iota.
  rewrite (proj2 (String.eqb_neq _ _) Hs), (proj2 (String.eqb_neq _ _) Hc).
  cbn [fst]. split; [discriminate|].
  intros [[H _]|[[H|H] _]]; contradiction.
Qed.

(** X27: with a mode other than client, server or empty, [Config.Validate]
    reports the mode and nothing else, whatever the targets and the server
    port, and leaves the configuration as it is. *)
Theorem Config_Validate_stops_at_a_wrong_mode :
  forall cfg,
    Iperf.Mode cfg <> "client" -> Iperf.Mode cfg <> "server" ->
    Iperf.Mode cfg <> EmptyString ->
    Iperf.Config_Validate cfg
    = ([Iperf.Plain ("invalid mode: " ++ Iperf.Mode cfg
                     ++ ", must be 'client' or 'server'")], cfg).
Proof.
  intros [ts mode port]. cbn [Iperf.Mode]. intros Hc Hs He.
  iperf_config_unfold.
  rewrite (proj2 (String.eqb_neq _ _) Hc), (proj2 (String.eqb_neq _ _) Hs),
    (proj2 (String.eqb_neq _ _) He).
  cbn [negb andb]. cbv iota.
  rewrite (proj2 (String.eqb_neq _ _) Hc), (proj2 (String.eqb_neq _ _) Hs).
  reflexivity.
Qed.

Lemma Config_Validate_stops_at_a_wrong_mode_witness :
  Iperf.Config_Validate wrongMode
  = ([Iperf.Plain ("invalid mode: " ++ Iperf.Mode wrongMode
                   ++ ", must be 'client' or 'server'")], wrongMode).
Proof.
  apply (Config_Validate_stops_at_a_wrong_mode wrongMode); discriminate.
Defined.

(** X28: all [Config.Validate] changes in a configuration is an empty mode,
    which becomes client: the defaults that validating a target fills in are
    not stored, so the targets stay as they were; validating again changes
    nothing and reports the same. *)
Theorem Config_Validate_only_defaults_the_mode :
  forall cfg,
    let cfg' := snd (Iperf.Config_Validate cfg) in
    Iperf.Targets cfg' = Iperf.Targets cfg /\
    Iperf.ServerPort cfg' = Iperf.ServerPort cfg /\
    Iperf.Mode cfg'
    = (if String.eqb (Iperf.Mode cfg) EmptyString then "client"
       else Iperf.Mode cfg) /\
    Iperf.Config_Validate cfg' = Iperf.Config_Validate cfg.
Proof.
  intros [ts mode port]. iperf_config_unfold. cbn [snd].
  destruct (String.eqb_spec mode EmptyString) as [->|He].
  - repeat split.
  - repeat split. iperf_config_unfold.
    rewrite (proj2 (String.eqb_neq _ _) He). reflexivity.
Qed.

(** A validated configuration can still hold a target without streams,
    protocol or duration: the defaults are in the copy that was validated. *)
Lemma validated_config_keeps_unset_target :
  fst (Iperf.Config_Validate minimalClient) = [] /\
  Iperf.Targets (snd (Iperf.Config_Validate minimalClient))
  = [Iperf.minimalTarget] /\
  snd (Iperf.TargetConfig_Validate Iperf.minimalTarget)
  = Iperf.set_Protocol "tcp"
      (Iperf.set_Streams 1
         (Iperf.set_Duration 10000000000 Iperf.minimalTarget)).
Proof. repeat split. Qed.

(** ** iperfreceiver: one client test *)

Lemma points_app a b :
  Scraper.points (a ++ b) = (Scraper.points a ++ Scraper.points b)%list.
Proof. unfold Scraper.points. apply flat_map_app. Qed.

(** X29: [recordMetrics] records nothing for a report without an end
    section and at most nine points otherwise, the test duration first;
    every point bears the given timestamp and the target's protocol; a
    retransmits point is only recorded for tcp and a jitter or packet-loss
    point only for udp. *)
Theorem recordMetrics_discipline :
  forall report target ts testDuration,
    let recorded :=
      Scraper.points (Scraper.recordMetrics report target ts testDuration) in
    Forall (fun p =>
              Scraper.pointTimestamp p = ts /\
              Scraper.pointProtocol p = Some (Iperf.Protocol target) /\
              (forall q, Scraper.peculiarTo p = Some q ->
                         Iperf.Protocol target = q))
           recorded /\
    (List.length recorded <= 9)%nat /\
    match Scraper.ReportEnd report with
    | None => recorded = []
    | Some _ =>
        exists rest,
          recorded
          = Scraper.IperfTestDuration ts testDuration (Iperf.Protocol target)
            :: rest
    end.
Proof.
  intros [[[sent received cpu]|]] target ts testDuration recorded;
    subst recorded; unfold Scraper.recordMetrics; cbn [Scraper.ReportEnd];
    [|cbn; repeat split; auto; lia].
  cbv zeta. cbn [Scraper.SumSent Scraper.SumReceived Scraper.CPUUtilization].
  destruct (String.eqb_spec (Iperf.Protocol target) "tcp") as [Et|Et];
    destruct (String.eqb_spec (Iperf.Protocol target) "udp") as [Eu|Eu];
    try (rewrite Et in Eu; discriminate);
    destruct sent as [s|], received as [r|], cpu as [c|];
    cbn [andb Scraper.only];
    repeat match goal with
           | |- context [Scraper.only ?b _] => destruct b; cbn [Scraper.only]
           end;
    cbn [app Scraper.points flat_map List.length];
    (split; [|split; [lia|eexists; reflexivity]]);
    repeat (apply Forall_cons;
            [split; [reflexivity|split; [reflexivity|]];
             cbn [Scraper.peculiarTo];
             first [intros q H; discriminate H
                   |intros q [= <-]; assumption]|]);
    apply Forall_nil.
Qed.

(** X30: the settings of a client test name exactly one protocol: UDP for
    udp, SCTP for sctp and TCP for anything else, the empty protocol
    included; the bandwidth is set exactly for a udp target that gives one,
    and the TCP options (zero copy, no delay, MSS, window, congestion
    algorithm) are never set for a udp or sctp target.  A test that fails to
    start records the error point, with value 1 and the error's text, and
    nothing else; a test without a report records nothing. *)
Theorem client_test_discipline :
  forall target ts err report testDuration,
    let settings := Scraper.clientSettings target in
    flat_map Scraper.protoOf settings
    = [if String.eqb (Iperf.Protocol target) "udp" then Scraper.PROTO_UDP
       else if String.eqb (Iperf.Protocol target) "sctp"
            then Scraper.PROTO_SCTP else Scraper.PROTO_TCP] /\
    existsb Scraper.isBandwidth settings
    = String.eqb (Iperf.Protocol target) "udp"
      && negb (String.eqb (Iperf.Bandwidth target) EmptyString) /\
    (existsb Scraper.tcpOnly settings = true ->
     Iperf.Protocol target <> "udp" /\ Iperf.Protocol target <> "sctp") /\
    Scraper.points
      (Scraper.runClientTest target ts (Some err) report testDuration)
    = [Scraper.IperfTestError ts 1 err] /\
    Scraper.points (Scraper.runClientTest target ts None None testDuration)
    = [].
Proof.
  intros target ts err report testDuration settings. subst settings.
  unfold Scraper.clientSettings.
  destruct (String.eqb_spec (Iperf.Protocol target) "udp") as [Eu|Eu];
    [|destruct (String.eqb_spec (Iperf.Protocol target) "sctp") as [Es|Es]].
  - destruct (String.eqb (Iperf.Bandwidth target) EmptyString);
      repeat split; discriminate.
  - repeat split; discriminate.
  - destruct (Iperf.ZeroCopy target), (Iperf.NoDelay target),
      (0 <? Iperf.MSS target),
      (String.eqb (Iperf.Window target) EmptyString),
      (String.eqb (Iperf.Congestion target) EmptyString);
      repeat split; assumption.
Qed.
